(** * generate.js: model selection and fallback over the Gemini endpoints

    A shallow embedding of [src/generate.js] and the properties of its
    model prioritizer ([getDynamicModelList]), its fallback executor
    ([fetchFromModels]) and its HTTP [handler].

    The program is JavaScript working on parsed JSON, so the embedding
    keeps values untyped: a [JsVal] is what [JSON.parse] can produce, plus
    [undefined] and [NaN], which the program's own expressions create.
    Reading a property, optional chaining, truthiness and [Array.some]
    follow the language, exceptions included.  [console.log] and friends
    are left out: they produce no value and touch nothing the program
    reads back. *)

From Stdlib Require Import List String Ascii ZArith QArith Bool Lia Permutation.
From Stdlib Require Import DecimalString.
Import ListNotations.
Close Scope Q_scope.
Open Scope string_scope.
Open Scope Z_scope.

(** ** The JavaScript fragment the program uses *)
Module Js.

(** Numbers.  The program only measures lengths, adds them up and compares
    the total with a threshold, so the integers and [NaN] are enough; sums
    of lengths stay far below 2^53, where doubles add exactly. *)
Inductive JsNumber : Type :=
| NFin (z : Z)
| NNaN.

(** Values.  A string is the sequence of its code units, one [ascii] per
    unit, so that [String.length] is JavaScript's [.length]; an object is
    the list of its own properties, the first binding of a key being the
    one that is read. *)
#[warnings="-register-all"]
Inductive JsVal : Type :=
| JUndefined
| JNull
| JBool (b : bool)
| JNum (n : JsNumber)
| JStr (s : string)
| JArr (elems : list JsVal)
| JObj (fields : list (string * JsVal)).

(** What an axios rejection carries in [error.response]. *)
Record ErrResponse : Type := mkErrResponse {
  status : Z;
  data : JsVal
}.

(** An [Error] object, with the three properties the program reads:
    [error.message], [error.code] and [error.response]. *)
Record JsError : Type := mkError {
  message : string;
  code : option string;
  response : option ErrResponse
}.

(** [new Error(msg)] *)
Definition new_Error (msg : string) : JsError :=
  {| message := msg; code := None; response := None |}.

(** A [TypeError] raised by the runtime; only its text differs from
    [new Error]. *)
Definition TypeError (msg : string) : JsError := new_Error msg.

(** Outcome of evaluating an expression or a block.  [Unmodelled] marks the
    few runs that need a coercion outside this fragment (an object or an
    array turned into a string, string concatenation by [+]). *)
Inductive Completion (A : Type) : Type :=
| Normal (a : A)
| Throw (e : JsError)
| Unmodelled.
Arguments Normal {A} a.
Arguments Throw {A} e.
Arguments Unmodelled {A}.

Definition bind {A B : Type} (c : Completion A) (k : A -> Completion B)
  : Completion B :=
  match c with
  | Normal a => k a
  | Throw e => Throw e
  | Unmodelled => Unmodelled
  end.

Notation "x <- c ;; k" := (bind c (fun x => k))
  (at level 61, c at next level, right associativity).

(** [ToBoolean] *)
Definition truthy (v : JsVal) : bool :=
  match v with
  | JUndefined | JNull => false
  | JBool b => b
  | JNum (NFin z) => negb (z =? 0)
  | JNum NNaN => false
  | JStr s => negb (s =? "")%string
  | JArr _ | JObj _ => true
  end.

(** [v == null], the test behind [?.] *)
Definition nullish (v : JsVal) : bool :=
  match v with
  | JUndefined | JNull => true
  | _ => false
  end.

Fixpoint lookup (k : string) (fields : list (string * JsVal)) : option JsVal :=
  match fields with
  | [] => None
  | (k', v) :: rest => if (k' =? k)%string then Some v else lookup k rest
  end.

Definition of_nat (n : nat) : JsVal := JNum (NFin (Z.of_nat n)).

(** [v.name] on a value that is neither [null] nor [undefined], for the
    names the program reads ([messages], [parts], [text], [length],
    [candidates], [content], [finishReason], [error], [message]): an own
    property of an object, the length of an array or a string, and
    [undefined] everywhere else (no prototype defines these names). *)
Definition own (v : JsVal) (name : string) : JsVal :=
  match v with
  | JObj fields =>
      match lookup name fields with Some x => x | None => JUndefined end
  | JArr elems =>
      if (name =? "length")%string then of_nat (List.length elems) else JUndefined
  | JStr s =>
      if (name =? "length")%string then of_nat (String.length s) else JUndefined
  | _ => JUndefined
  end.

(** The text of the [TypeError] for a property read on [null] or
    [undefined]. *)
Definition cannot_read (v : JsVal) (name : string) : string :=
  "Cannot read properties of "
  ++ match v with JNull => "null" | _ => "undefined" end
  ++ " (reading '" ++ name ++ "')".

(** [v.name]: a [TypeError] on [null] and [undefined]. *)
Definition get (v : JsVal) (name : string) : Completion JsVal :=
  if nullish v then Throw (TypeError (cannot_read v name))
  else Normal (own v name).

(** [v?.name] *)
Definition opt_get (v : JsVal) (name : string) : JsVal :=
  if nullish v then JUndefined else own v name.

(** [v[0]] on a value that is neither [null] nor [undefined]. *)
Definition own0 (v : JsVal) : JsVal :=
  match v with
  | JArr (x :: _) => x
  | JStr (String c _) => JStr (String c EmptyString)
  | JObj fields =>
      match lookup "0" fields with Some x => x | None => JUndefined end
  | _ => JUndefined
  end.

(** [v[0]] *)
Definition get0 (v : JsVal) : Completion JsVal :=
  if nullish v then Throw (TypeError (cannot_read v "0"))
  else Normal (own0 v).

(** [v?.[0]] *)
Definition opt_get0 (v : JsVal) : JsVal :=
  if nullish v then JUndefined else own0 v.

(** [Array.prototype.some], the callback applied from the left until it
    answers a truthy value; an exception of the callback ends the scan. *)
Fixpoint some (f : JsVal -> Completion JsVal) (elems : list JsVal)
  : Completion bool :=
  match elems with
  | [] => Normal false
  | p :: rest =>
      r <- f p ;;
      if truthy r then Normal true else some f rest
  end.

(** [v?.some(f)]: [undefined] on [null] and [undefined], the scan on an
    array, and a [TypeError] on anything else, which has no callable
    [some]. *)
Definition opt_some (v : JsVal) (f : JsVal -> Completion JsVal)
  : Completion JsVal :=
  match v with
  | JUndefined | JNull => Normal JUndefined
  | JArr elems => b <- some f elems ;; Normal (JBool b)
  | _ => Throw (TypeError "candidate?.content?.parts?.some is not a function")
  end.

(** [v === 'literal'] *)
Definition strict_eq_str (v : JsVal) (lit : string) : bool :=
  match v with
  | JStr s => (s =? lit)%string
  | _ => false
  end.

(** [Array.isArray] *)
Definition isArray (v : JsVal) : bool :=
  match v with
  | JArr _ => true
  | _ => false
  end.

(** [ToString] of a primitive, as a template literal applies it.  Integers
    print in decimal below 10^21; the exponent form beyond that, and the
    conversion of arrays and objects, are outside the fragment. *)
Definition to_string (v : JsVal) : option string :=
  match v with
  | JUndefined => Some "undefined"
  | JNull => Some "null"
  | JBool true => Some "true"
  | JBool false => Some "false"
  | JNum NNaN => Some "NaN"
  | JNum (NFin z) =>
      if Z.abs z <? 10 ^ 21
      then Some (NilZero.string_of_int (Z.to_int z))
      else None
  | JStr s => Some s
  | JArr _ | JObj _ => None
  end.

(** Number addition, [NaN] absorbing. *)
Definition num_add (a b : JsNumber) : JsNumber :=
  match a, b with
  | NFin x, NFin y => NFin (x + y)
  | _, _ => NNaN
  end.

(** [acc + v] for a number [acc]: [ToNumber] of the primitive operand and
    an addition; a string, array or object operand would concatenate
    strings instead. *)
Definition add (acc : JsNumber) (v : JsVal) : Completion JsNumber :=
  match v with
  | JNum n => Normal (num_add acc n)
  | JUndefined => Normal NNaN
  | JNull => Normal (num_add acc (NFin 0))
  | JBool b => Normal (num_add acc (NFin (if b then 1 else 0)))
  | JStr _ | JArr _ | JObj _ => Unmodelled
  end.

(** [n > k], false on [NaN]. *)
Definition gt (n : JsNumber) (k : Z) : bool :=
  match n with
  | NFin z => k <? z
  | NNaN => false
  end.

(** [xs[i]] on a constant array of strings ([undefined] prints as such). *)
Definition at_index (xs : list string) (i : nat) : string :=
  nth i xs "undefined".

End Js.
Import Js.

(** ** The model catalog and the prioritizer *)

(** [ALL_MODELS], from the most to the least capable. *)
Definition ALL_MODELS : list string :=
  [ "gemini-2.5-pro";
    "gemini-2.5-flash";
    "gemini-1.5-pro-latest";
    "gemini-1.5-flash-latest";
    "gemini-pro" ].

Definition THRESHOLD : Z := 4000.

(** [getDynamicModelList(totalChars)] *)
Definition getDynamicModelList (totalChars : JsNumber) : list string :=
  if gt totalChars THRESHOLD then
    [ at_index ALL_MODELS 0;
      at_index ALL_MODELS 2;
      at_index ALL_MODELS 1;
      at_index ALL_MODELS 3;
      at_index ALL_MODELS 4 ]
  else
    [ at_index ALL_MODELS 1;
      at_index ALL_MODELS 3;
      at_index ALL_MODELS 0;
      at_index ALL_MODELS 2;
      at_index ALL_MODELS 4 ].

(** ** The upstream service and what a run leaves behind *)

(** The arguments of one [axios.post]: the URL, the three fields of the
    body and the two of the configuration. *)
Record AxiosPost : Type := mkPost {
  url : string;
  contents : JsVal;
  generationConfig : Q * Z;                 (* temperature, maxOutputTokens *)
  safetySettings : list (string * string);  (* category, threshold *)
  headers : list (string * string);
  timeout : Z
}.

(** What a run does to the outside, in the order it happens. *)
Inductive Event : Type :=
| Post (call : AxiosPost)      (* await axios.post(...) *)
| Delay (ms : Z).              (* await delay(ms) *)

Definition Trace : Type := list Event.

(** How the promise of [axios.post] settles: with a response, of which the
    program reads [response.data], or with an error. *)
Inductive AxiosResult : Type :=
| Resolved (response_data : JsVal)
| Rejected (error : JsError).

(** The upstream service answers a call knowing everything that happened
    before it. *)
Definition Upstream : Type := Trace -> AxiosPost -> AxiosResult.

(** [process.env], for the one variable the program reads. *)
Record Env : Type := mkEnv {
  GOOGLE_API_KEY : option string
}.

(** How one attempt that got a response ends: the response is returned, or
    it becomes the last error and the loop goes on. *)
Inductive Attempt : Type :=
| Accept (response_data : JsVal)
| Soft (lastError : JsError).

(** [error.response?.status || 500] *)
Definition status_or_500 (error : JsError) : Z :=
  match response error with
  | Some r => if status r =? 0 then 500 else status r
  | None => 500
  end.

(** [new Error(`Respuesta vacía o bloqueada de ${model} (Razón: ${reason})`)] *)
Definition soft_error (model reason : string) : JsError :=
  new_Error ("Respuesta vacía o bloqueada de " ++ model
             ++ " (Razón: " ++ reason ++ ")").

(** [candidate?.content?.parts?.some(p => p.text)] *)
Definition hasTextResult (candidate : JsVal) : Completion JsVal :=
  opt_some (opt_get (opt_get candidate "content") "parts")
           (fun p => get p "text").

(** The body of the [try] once the response is there: the acceptance test,
    [return response.data], or the new [lastError]. *)
Definition inspect (model : string) (response_data : JsVal)
  : Completion Attempt :=
  let candidate := opt_get0 (opt_get response_data "candidates") in
  hasText <- hasTextResult candidate ;;
  let finishReason := opt_get candidate "finishReason" in
  if truthy hasText
     && (strict_eq_str finishReason "STOP"
         || strict_eq_str finishReason "MAX_TOKENS")
  then Normal (Accept response_data)
  else
    match to_string (if truthy finishReason then finishReason
                     else JStr "Desconocida") with
    | Some reason => Normal (Soft (soft_error model reason))
    | None => Unmodelled
    end.

Section Program.

Variable env : Env.
Variable axios_post : Upstream.

(** The template literal of [apiUrl]. *)
Definition apiUrl (model : string) : string :=
  "https://generativelanguage.googleapis.com/v1beta/models/" ++ model
  ++ ":generateContent?key="
  ++ match GOOGLE_API_KEY env with Some k => k | None => "undefined" end.

Definition post_args (messages : JsVal) (model : string) : AxiosPost :=
  {| url := apiUrl model;
     contents := messages;
     generationConfig := ((7 # 10)%Q, 8192);
     safetySettings :=
       [ ("HARM_CATEGORY_HARASSMENT", "BLOCK_MEDIUM_AND_ABOVE");
         ("HARM_CATEGORY_HATE_SPEECH", "BLOCK_MEDIUM_AND_ABOVE");
         ("HARM_CATEGORY_SEXUALLY_EXPLICIT", "BLOCK_MEDIUM_AND_ABOVE");
         ("HARM_CATEGORY_DANGEROUS_CONTENT", "BLOCK_MEDIUM_AND_ABOVE") ];
     headers := [ ("Content-Type", "application/json") ];
     timeout := 45000 |}.

(** The [for] loop of [fetchFromModels], with [lastError] and the trace so
    far as its state. *)
Fixpoint fetch_loop (messages : JsVal) (lastError : option JsError)
    (modelList : list string) (t : Trace) : Completion JsVal * Trace :=
  match modelList with
  | [] =>
      (Throw match lastError with
             | Some e => e
             | None => new_Error "No se pudo obtener una respuesta de ningún modelo de IA."
             end, t)
  | model :: rest =>
      let call := post_args messages model in
      let t1 := (t ++ [Post call])%list in
      match match axios_post t call with
            | Resolved response_data => inspect model response_data
            | Rejected error => Throw error
            end with
      | Normal (Accept response_data) => (Normal response_data, t1)
      | Normal (Soft e) => fetch_loop messages (Some e) rest t1
      | Throw error =>
          if status_or_500 error =? 400 then (Throw error, t1)
          else fetch_loop messages (Some error) rest (t1 ++ [Delay 500])%list
      | Unmodelled => (Unmodelled, t1)
      end
  end.

(** [fetchFromModels(messages, modelList)] *)
Definition fetchFromModels (messages : JsVal) (modelList : list string)
    (t : Trace) : Completion JsVal * Trace :=
  fetch_loop messages None modelList t.

(** *** The handler *)

(** [acc + (msg.parts[0].text ? msg.parts[0].text.length : 0)], the
    callback of [messages.reduce]. *)
Definition addFirstText (acc : JsNumber) (msg : JsVal) : Completion JsNumber :=
  parts <- get msg "parts" ;;
  part0 <- get0 parts ;;
  text <- get part0 "text" ;;
  if truthy text
  then len <- get text "length" ;; add acc len
  else add acc (JNum (NFin 0)).

(** [Array.prototype.reduce] with an initial value. *)
Fixpoint reduce (f : JsNumber -> JsVal -> Completion JsNumber)
    (elems : list JsVal) (acc : JsNumber) : Completion JsNumber :=
  match elems with
  | [] => Normal acc
  | x :: rest => acc' <- f acc x ;; reduce f rest acc'
  end.

(** [messages.reduce(..., 0)]; past the handler's guard [messages] is an
    array. *)
Definition totalCharsOf (messages : JsVal) : Completion JsNumber :=
  match messages with
  | JArr elems => reduce addFirstText elems (NFin 0)
  | _ => Throw (TypeError "messages.reduce is not a function")
  end.

(** [v === k] for an integer literal [k]. *)
Definition strict_eq_int (v : JsVal) (k : Z) : bool :=
  match v with
  | JNum (NFin z) => z =? k
  | _ => false
  end.

(** The request and the response, as far as the program reads and writes
    them. *)
Record Request : Type := mkRequest {
  method : string;
  body : JsVal
}.

Record Response : Type := mkResponse {
  statusCode : Z;
  resHeaders : list (string * JsVal);
  json : option JsVal          (* [None] after [res.end()] *)
}.

(** [res.status(st).json(payload)] *)
Definition respond (st : Z) (payload : JsVal) : Response :=
  {| statusCode := st; resHeaders := []; json := Some payload |}.

Definition error_body (msg : JsVal) : JsVal := JObj [("error", msg)].

(** The texts the handler answers with, as the bytes of the source file. *)
Definition MSG_GENERIC : string :=
  "No se pudo obtener una respuesta de los modelos. Intenta nuevamente.".
Definition MSG_QUOTA : string :=
  "Se ha excedido la cuota de solicitudes. Espera un momento.".
Definition MSG_BAD_REQUEST : string :=
  "Solicitud inválida. Revisa el contenido, puede contener información sensible.".
Definition MSG_TIMEOUT : string :=
  "La solicitud tardó demasiado en responder (Timeout).".
Definition dquote : string := String (ascii_of_nat 34) EmptyString.
Definition MSG_MESSAGES_REQUIRED : string :=
  "El campo " ++ dquote ++ "messages" ++ dquote
  ++ " es requerido y debe ser un array no vacío.".

(** [error.response?.data?.error?.message] *)
Definition upstream_message (error : JsError) : JsVal :=
  let d := match response error with
           | Some r => data r
           | None => JUndefined
           end in
  opt_get (opt_get d "error") "message".

(** The [catch] block of the handler. *)
Definition handler_catch (error : JsError) : Response :=
  let statusCode := status_or_500 error in
  let errorMessage :=
    if truthy (upstream_message error) then upstream_message error
    else JStr MSG_GENERIC in
  let errorMessage :=
    if statusCode =? 429 then JStr MSG_QUOTA
    else if statusCode =? 400 then JStr MSG_BAD_REQUEST
    else match code error with
         | Some c => if (c =? "ECONNABORTED")%string then JStr MSG_TIMEOUT
                     else errorMessage
         | None => errorMessage
         end in
  respond statusCode (error_body errorMessage).

(** The [try] block of the handler. *)
Definition handler_try (messages : JsVal) (t : Trace)
  : Completion JsVal * Trace :=
  match totalCharsOf messages with
  | Normal totalChars =>
      fetchFromModels messages (getDynamicModelList totalChars) t
  | Throw e => (Throw e, t)
  | Unmodelled => (Unmodelled, t)
  end.

(** [handler(req, res)]: the response sent, or the exception that escapes
    (the destructuring of [req.body] is outside the [try]). *)
Definition handler (req : Request) (t : Trace) : Completion Response * Trace :=
  if negb (method req =? "POST")%string then
    (Normal {| statusCode := 405;
               resHeaders := [("Allow", JArr [JStr "POST"])];
               json := Some (error_body (JStr "Método no permitido")) |}, t)
  else
    match get (body req) "messages" with
    | Normal messages =>
        if negb (truthy messages) || negb (isArray messages)
           || strict_eq_int (own messages "length") 0
        then (Normal (respond 400 (error_body (JStr MSG_MESSAGES_REQUIRED))), t)
        else
          let apiKey := GOOGLE_API_KEY env in
          if match apiKey with Some k => (k =? "")%string | None => true end
          then (Normal (respond 500 (error_body
                  (JStr "Error de configuración del servidor."))), t)
          else
            match handler_try messages t with
            | (Normal responseData, t') => (Normal (respond 200 responseData), t')
            | (Throw error, t') => (Normal (handler_catch error), t')
            | (Unmodelled, t') => (Unmodelled, t')
            end
    | Throw e => (Throw e, t)
    | Unmodelled => (Unmodelled, t)
    end.

(** The headers [allowCors] sets on every response. *)
Definition CORS_HEADERS : list (string * JsVal) :=
  [ ("Access-Control-Allow-Credentials", JBool true);
    ("Access-Control-Allow-Origin", JStr "*");
    ("Access-Control-Allow-Methods", JStr "POST, OPTIONS");
    ("Access-Control-Allow-Headers",
     JStr "X-CSRF-Token, X-Requested-With, Accept, Accept-Version, Content-Length, Content-MD5, Content-Type, Date, X-Api-Version") ].

(** [allowCors(fn)] *)
Definition allowCors (fn : Request -> Trace -> Completion Response * Trace)
    (req : Request) (t : Trace) : Completion Response * Trace :=
  if (method req =? "OPTIONS")%string then
    (Normal {| statusCode := 200; resHeaders := CORS_HEADERS; json := None |}, t)
  else
    match fn req t with
    | (Normal r, t') =>
        (Normal {| statusCode := statusCode r;
                   resHeaders := (CORS_HEADERS ++ resHeaders r)%list;
                   json := json r |}, t')
    | other => other
    end.

(** [module.exports] *)
Definition exports : Request -> Trace -> Completion Response * Trace :=
  allowCors handler.

End Program.

(** ** The shape of what the upstream sends

    The vocabulary of the properties below: parts, text segments,
    candidates and completion reasons, read off the JSON of a response
    without running the program. *)

(** A part: an object whose [text], when it has one, is a string. *)
Definition is_part (p : JsVal) : bool :=
  match p with
  | JObj fields =>
      match lookup "text" fields with
      | None | Some (JStr _) => true
      | Some _ => false
      end
  | _ => false
  end.

(** A non-empty text segment. *)
Definition text_segment (p : JsVal) : bool :=
  match p with
  | JObj fields =>
      match lookup "text" fields with
      | Some (JStr s) => negb (s =? "")%string
      | _ => false
      end
  | _ => false
  end.

(** The parts of a candidate, none when it has no content or no parts. *)
Definition parts_of (c : JsVal) : list JsVal :=
  match own (own c "content") "parts" with
  | JArr ps => ps
  | _ => []
  end.

(** A candidate: an object whose completion reason is a string or is
    missing, and whose content, when present, is an object whose
    [parts], when present, is an array of parts. *)
Definition is_candidate (c : JsVal) : bool :=
  match c with
  | JObj _ =>
      match own c "finishReason" with
      | JUndefined | JNull | JStr _ => true
      | _ => false
      end
      && match own c "content" with
         | JUndefined | JNull => true
         | JObj _ as content =>
             match own content "parts" with
             | JUndefined | JNull => true
             | JArr ps => forallb is_part ps
             | _ => false
             end
         | _ => false
         end
  | _ => false
  end.

Definition has_text (c : JsVal) : bool := existsb text_segment (parts_of c).

(** The completion reason is 'STOP' or 'MAX_TOKENS'. *)
Definition finished (c : JsVal) : bool :=
  match own c "finishReason" with
  | JStr s => (s =? "STOP")%string || (s =? "MAX_TOKENS")%string
  | _ => false
  end.

(** A response whose first candidate holds a non-empty text segment and
    finished with 'STOP' or 'MAX_TOKENS'. *)
Definition accept_response (d : JsVal) : bool :=
  match own d "candidates" with
  | JArr (c :: _) => is_candidate c && has_text c && finished c
  | _ => false
  end.

(** A response with no candidate, or whose first candidate has no text or
    another completion reason. *)
Definition soft_response (d : JsVal) : bool :=
  match own d "candidates" with
  | JUndefined | JNull | JArr [] => true
  | JArr (c :: _) => is_candidate c && negb (has_text c && finished c)
  | _ => false
  end.

(** The reason a soft failure reports: the first candidate's completion
    reason, 'Desconocida' when there is none. *)
Definition displayed_reason (d : JsVal) : string :=
  match own d "candidates" with
  | JArr (c :: _) =>
      match own c "finishReason" with
      | JStr s => if (s =? "")%string then "Desconocida" else s
      | _ => "Desconocida"
      end
  | _ => "Desconocida"
  end.

(** ** The conversation size as the documentation words it *)

(** The parts of a message. *)
Definition message_parts (msg : JsVal) : list JsVal :=
  match own msg "parts" with
  | JArr ps => ps
  | _ => []
  end.

(** The length of the text of a part, 0 when it has none. *)
Definition text_length (p : JsVal) : Z :=
  match p with
  | JObj fields =>
      match lookup "text" fields with
      | Some (JStr s) => Z.of_nat (String.length s)
      | _ => 0
      end
  | _ => 0
  end.

(** "El número total de caracteres en la conversación": the lengths of
    all the text segments of all the messages, added up. *)
Definition allTextChars (messages : list JsVal) : Z :=
  fold_right (fun msg total =>
                fold_right (fun p n => text_length p + n) 0 (message_parts msg)
                + total)
             0 messages.

(** ** Reading a run *)

(** One attempt of the loop: the call, and the inspection of the response
    when there is one.  This is the scrutinee of [fetch_loop]. *)
Definition attempt (env : Env) (axios_post : Upstream) (messages : JsVal)
    (model : string) (t : Trace) : Completion Attempt :=
  match axios_post t (post_args env messages model) with
  | Resolved response_data => inspect model response_data
  | Rejected error => Throw error
  end.

(** The calls of a trace, and its pauses. *)
Definition posts (t : Trace) : list AxiosPost :=
  flat_map (fun ev => match ev with Post call => [call] | Delay _ => [] end) t.

Definition delays (t : Trace) : list Z :=
  flat_map (fun ev => match ev with Post _ => [] | Delay ms => [ms] end) t.

(** The events of a sequence of attempts, each one a model and whether a
    pause followed its call. *)
Definition attempt_events (env : Env) (messages : JsVal)
    (steps : list (string * bool)) : Trace :=
  flat_map (fun step : string * bool =>
              Post (post_args env messages (fst step))
              :: (if snd step then [Delay 500] else []))
           steps.

(** The lengths of the texts of the first part of every message, added
    up. *)
Definition firstTextChars (messages : list JsVal) : Z :=
  fold_right (fun msg total =>
                match message_parts msg with
                | p :: _ => text_length p
                | [] => 0
                end + total)
             0 messages.

(** The error [fetchFromModels] throws when no attempt recorded one. *)
Definition no_response_error : JsError :=
  new_Error "No se pudo obtener una respuesta de ningún modelo de IA.".

(** ** Concrete requests and answers *)
Module Examples.

Definition text_part (s : string) : JsVal := JObj [("text", JStr s)].

Definition image_part : JsVal :=
  JObj [("inlineData",
         JObj [("mimeType", JStr "image/png"); ("data", JStr "iVBORw0KGgo=")])].

Definition user_message (ps : list JsVal) : JsVal :=
  JObj [("role", JStr "user"); ("parts", JArr ps)].

Definition candidate (ps : list JsVal) (reason : string) : JsVal :=
  JObj [("content", JObj [("parts", JArr ps); ("role", JStr "model")]);
        ("finishReason", JStr reason)].

(** A response with a single candidate. *)
Definition reply (text reason : string) : JsVal :=
  JObj [("candidates", JArr [candidate [text_part text] reason])].

(** A response whose first candidate was blocked and whose second one
    holds text and finished with 'STOP'. *)
Definition reply_in_second_candidate : JsVal :=
  JObj [("candidates",
         JArr [candidate [] "SAFETY"; candidate [text_part "hola"] "STOP"])].

Definition with_key : Env := {| GOOGLE_API_KEY := Some "test-key" |}.

Definition post (messages : JsVal) : Request :=
  {| method := "POST"; body := JObj [("messages", messages)] |}.

Definition hello : JsVal := JArr [user_message [text_part "hi"]].

(** An upstream that settles every call the same way. *)
Definition always (r : AxiosResult) : Upstream := fun _ _ => r.

(** An upstream that rejects the first call and resolves the later ones. *)
Definition fail_once (e : JsError) (d : JsVal) : Upstream :=
  fun t _ => match t with [] => Rejected e | _ => Resolved d end.

Definition http_error (st : Z) (msg : string) : JsError :=
  {| message := "Request failed";
     code := Some "ERR_BAD_RESPONSE";
     response :=
       Some {| status := st;
               data := JObj [("error", JObj [("message", JStr msg)])] |} |}.

Definition overloaded : JsError := http_error 503 "The model is overloaded.".
Definition invalid_argument : JsError := http_error 400 "Invalid argument.".

(** One message, two text parts of two characters each. *)
Definition two_parts : JsVal :=
  JArr [user_message [text_part "ab"; text_part "cd"]].

(** One message, a short first part and a second part of 4001 characters. *)
Definition long_second_part : JsVal :=
  JArr [user_message
          [text_part "hi";
           text_part (string_of_list_ascii (repeat "a"%char 4001))]].

(** One message that carries an image and no text. *)
Definition image_only : JsVal := JArr [user_message [image_part]].

(** One message without [parts]. *)
Definition no_parts : JsVal := JArr [JObj [("role", JStr "user")]].

(** A response whose first candidate has a string for [parts]. *)
Definition parts_not_an_array : JsVal :=
  JObj [("candidates",
         JArr [JObj [("content", JObj [("parts", JStr "hola")]);
                     ("finishReason", JStr "STOP")]])].

Definition without_key : Env := {| GOOGLE_API_KEY := None |}.

Definition quota_exceeded : JsError := http_error 429 "Quota exceeded.".

End Examples.

(** ** Properties of the prioritizer *)

(** C2. Whatever the size, the ordering is a permutation of the catalog:
    the same five identifiers, none repeated, and 'gemini-pro', the oldest
    fallback, comes last. *)
Theorem ordering_is_permutation_of_catalog (totalChars : JsNumber) :
  Permutation ALL_MODELS (getDynamicModelList totalChars)
  /\ NoDup (getDynamicModelList totalChars)
  /\ List.length (getDynamicModelList totalChars) = 5%nat
  /\ (forall m, In m (getDynamicModelList totalChars) <-> In m ALL_MODELS)
  /\ last (getDynamicModelList totalChars) "" = "gemini-pro".
Proof.
  assert (Hnd : NoDup ALL_MODELS).
  { unfold ALL_MODELS.
    repeat (constructor; [ simpl; intuition discriminate | ]).
    constructor. }
  assert (Hp : Permutation ALL_MODELS (getDynamicModelList totalChars)).
  { unfold getDynamicModelList, ALL_MODELS.
    destruct (gt totalChars THRESHOLD); cbn [at_index nth].
    - apply perm_skip. apply perm_swap.
    - eapply perm_trans; [ apply perm_swap | ].
      apply perm_skip.
      eapply perm_trans; [ apply perm_skip, perm_swap | ].
      apply perm_swap. }
  split; [ exact Hp | ].
  split; [ exact (Permutation_NoDup Hp Hnd) | ].
  split; [ rewrite <- (Permutation_length Hp); reflexivity | ].
  split.
  - intro m. split; intro H.
    + exact (Permutation_in m (Permutation_sym Hp) H).
    + exact (Permutation_in m Hp H).
  - unfold getDynamicModelList.
    destruct (gt totalChars THRESHOLD); reflexivity.
Qed.

(** C3. Up to 4000 characters the ordering starts with 'gemini-2.5-flash',
    above 4000 with 'gemini-2.5-pro'. *)
Theorem first_model_by_regime (totalChars : Z) (Hsize : 0 <= totalChars) :
  (totalChars <= 4000 ->
   hd_error (getDynamicModelList (NFin totalChars)) = Some "gemini-2.5-flash")
  /\ (totalChars > 4000 ->
      hd_error (getDynamicModelList (NFin totalChars)) = Some "gemini-2.5-pro").
Proof.
  unfold getDynamicModelList, gt, THRESHOLD.
  destruct (Z.ltb_spec 4000 totalChars) as [Hlong | Hshort]; split; intro H;
    solve [ reflexivity | lia ].
Qed.

Lemma first_model_by_regime_witness :
  hd_error (getDynamicModelList (NFin 4000)) = Some "gemini-2.5-flash"
  /\ hd_error (getDynamicModelList (NFin 4001)) = Some "gemini-2.5-pro".
Proof.
  split.
  - apply (proj1 (first_model_by_regime 4000 ltac:(lia))). lia.
  - apply (proj2 (first_model_by_regime 4001 ltac:(lia))). lia.
Defined.

(** ** Properties of the acceptance test *)

(** Over well-formed parts the scan of [some] finds exactly the non-empty
    text segments. *)
Lemma some_text_segments (ps : list JsVal) :
  forallb is_part ps = true ->
  some (fun p => get p "text") ps = Normal (existsb text_segment ps).
Proof.
  induction ps as [| p ps IH]; intro Hparts; [ reflexivity | ].
  cbn [forallb] in Hparts. apply andb_prop in Hparts as [Hp Hps].
  cbn [some existsb].
  destruct p as [ | | b | n | s | elems | fields ]; try discriminate Hp.
  unfold get, is_part, text_segment in *. cbn [nullish bind own].
  destruct (lookup "text" fields) as [ [ | | b | n | s | elems | fs ] | ];
    try discriminate Hp; cbn [truthy].
  - destruct (s =? "")%string; cbn [negb orb]; [ apply IH; exact Hps | reflexivity ].
  - cbn [orb]. apply IH. exact Hps.
Qed.

(** On a candidate, [hasTextResult] ends normally, and its value is truthy
    exactly when the candidate has a non-empty text segment. *)
Lemma hasTextResult_candidate (c : JsVal) :
  is_candidate c = true ->
  exists v, hasTextResult c = Normal v /\ truthy v = has_text c.
Proof.
  intro Hc. destruct c as [ | | b | n | s | elems | fields ]; try discriminate Hc.
  unfold is_candidate in Hc. apply andb_prop in Hc as [_ Hcontent].
  unfold hasTextResult, has_text, parts_of, opt_get.
  cbn [nullish].
  destruct (own (JObj fields) "content")
    as [ | | b | n | s | elems | cfields ] eqn:Econtent;
    try discriminate Hcontent;
    try (exists JUndefined; split; reflexivity).
  cbn [nullish].
  destruct (own (JObj cfields) "parts")
    as [ | | b | n | s | ps | pfields ] eqn:Eparts;
    try discriminate Hcontent;
    try (exists JUndefined; split; reflexivity).
  cbn [opt_some]. rewrite (some_text_segments ps Hcontent). cbn [bind].
  exists (JBool (existsb text_segment ps)). split; reflexivity.
Qed.

(** The two literals of the acceptance test, on a candidate. *)
Lemma finished_strict_eq (c : JsVal) :
  strict_eq_str (opt_get c "finishReason") "STOP"
  || strict_eq_str (opt_get c "finishReason") "MAX_TOKENS" = finished c.
Proof.
  unfold finished, opt_get.
  destruct (nullish c) eqn:En.
  - destruct c; try discriminate En; reflexivity.
  - destruct (own c "finishReason"); reflexivity.
Qed.

(** [response.data?.candidates?.[0]] of a response with candidates. *)
Lemma first_candidate (d c : JsVal) (cs : list JsVal) :
  own d "candidates" = JArr (c :: cs) ->
  opt_get0 (opt_get d "candidates") = c.
Proof.
  intro E. unfold opt_get.
  destruct (nullish d) eqn:Hd.
  - destruct d; try discriminate Hd; discriminate E.
  - rewrite E. reflexivity.
Qed.

(** ... and of a response without any. *)
Lemma no_candidate (d : JsVal) :
  own d "candidates" = JUndefined \/ own d "candidates" = JNull
  \/ own d "candidates" = JArr [] ->
  opt_get0 (opt_get d "candidates") = JUndefined.
Proof.
  unfold opt_get. destruct (nullish d); [ reflexivity | ].
  intros [E | [E | E]]; rewrite E; reflexivity.
Qed.

(** A response that qualifies is returned as it came. *)
Lemma inspect_accept (model : string) (d : JsVal) :
  accept_response d = true ->
  inspect model d = Normal (Accept d).
Proof.
  unfold accept_response. intro H.
  destruct (own d "candidates") as [ | | b | n | s | [| c cs] | fs ] eqn:Ecands;
    try discriminate H.
  apply andb_prop in H as [H Hfin]. apply andb_prop in H as [Hc Htext].
  unfold inspect. cbv zeta. rewrite !(first_candidate d c cs Ecands).
  destruct (hasTextResult_candidate c Hc) as (v & Hv & Htv).
  rewrite Hv. cbn [bind].
  rewrite Htv, Htext, finished_strict_eq, Hfin. reflexivity.
Qed.

(** A response that does not qualify becomes the last error, with the
    first candidate's completion reason in its text. *)
Lemma inspect_soft (model : string) (d : JsVal) :
  soft_response d = true ->
  inspect model d = Normal (Soft (soft_error model (displayed_reason d))).
Proof.
  unfold soft_response, displayed_reason. intro H.
  unfold inspect. cbv zeta.
  destruct (own d "candidates") as [ | | b | n | s | [| c cs] | fs ] eqn:Ecands;
    try discriminate H;
    try (rewrite !(no_candidate d) by tauto; reflexivity).
  rewrite !(first_candidate d c cs Ecands).
  apply andb_prop in H as [Hc Hno].
  destruct (hasTextResult_candidate c Hc) as (v & Hv & Htv).
  rewrite Hv. cbn [bind].
  rewrite Htv, finished_strict_eq.
  apply negb_true_iff in Hno. rewrite Hno.
  destruct c as [ | | b | n | s | elems | fields ]; try discriminate Hc.
  unfold is_candidate in Hc. apply andb_prop in Hc as [Hreason _].
  unfold opt_get. cbn [nullish].
  destruct (own (JObj fields) "finishReason") as [ | | b | n | s | elems | fs ];
    try discriminate Hreason; try reflexivity.
  cbn [truthy]. destruct (s =? "")%string; reflexivity.
Qed.

(** ** Properties of the fallback executor *)

Section Executor.

Variable env : Env.
Variable axios_post : Upstream.
Variable messages : JsVal.

(** One turn of the loop on an accepted response. *)
Lemma loop_accept lastError model rest t d :
  axios_post t (post_args env messages model) = Resolved d ->
  accept_response d = true ->
  fetch_loop env axios_post messages lastError (model :: rest) t
  = (Normal d, (t ++ [Post (post_args env messages model)])%list).
Proof.
  intros Hup Hacc. cbn [fetch_loop].
  rewrite Hup, (inspect_accept model d Hacc). reflexivity.
Qed.

(** One turn of the loop on a soft failure: the error is recorded and the
    next candidate follows at once. *)
Lemma loop_soft lastError model rest t d :
  axios_post t (post_args env messages model) = Resolved d ->
  soft_response d = true ->
  fetch_loop env axios_post messages lastError (model :: rest) t
  = fetch_loop env axios_post messages
               (Some (soft_error model (displayed_reason d))) rest
               (t ++ [Post (post_args env messages model)])%list.
Proof.
  intros Hup Hsoft. cbn [fetch_loop].
  rewrite Hup, (inspect_soft model d Hsoft). reflexivity.
Qed.

(** One turn of the loop on a rejected call that is not a 400. *)
Lemma loop_retry lastError model rest t e :
  axios_post t (post_args env messages model) = Rejected e ->
  status_or_500 e <> 400 ->
  fetch_loop env axios_post messages lastError (model :: rest) t
  = fetch_loop env axios_post messages (Some e) rest
               (t ++ [Post (post_args env messages model); Delay 500])%list.
Proof.
  intros Hup Hst. cbn [fetch_loop]. rewrite Hup.
  destruct (Z.eqb_spec (status_or_500 e) 400) as [E | _]; [ contradiction | ].
  rewrite <- app_assoc. reflexivity.
Qed.

(** C1. Whatever the conversation and the rest of the list: when the
    response to the first candidate, shaped as the upstream documents it,
    holds a non-empty text segment and finished with 'STOP' or
    'MAX_TOKENS', [fetchFromModels] posts once, to the first model, and
    returns that response as it is. *)
Theorem first_acceptable_response_wins model rest t d :
  axios_post t (post_args env messages model) = Resolved d ->
  accept_response d = true ->
  fetchFromModels env axios_post messages (model :: rest) t
  = (Normal d, (t ++ [Post (post_args env messages model)])%list).
Proof.
  intros Hup Hacc. unfold fetchFromModels.
  apply loop_accept; assumption.
Qed.

(** C4. When the first call is rejected with status 400, [fetchFromModels]
    throws that very error after this single call; the second candidate is
    never tried. *)
Theorem bad_request_aborts model second rest t e r :
  axios_post t (post_args env messages model) = Rejected e ->
  response e = Some r ->
  status r = 400 ->
  fetchFromModels env axios_post messages (model :: second :: rest) t
  = (Throw e, (t ++ [Post (post_args env messages model)])%list).
Proof.
  intros Hup Hr Hst. unfold fetchFromModels. cbn [fetch_loop].
  rewrite Hup. unfold status_or_500. rewrite Hr, Hst. reflexivity.
Qed.

(** When the attempt of every model of the list is a soft failure, the
    loop posts once per model, in order and without a pause, and throws
    the error of the last one. *)
Lemma loop_all_soft rest :
  forall model lastError t,
  (forall before m after,
      model :: rest = (before ++ m :: after)%list ->
      exists d,
        axios_post (t ++ map (fun m' => Post (post_args env messages m')) before)%list
                   (post_args env messages m)
        = Resolved d
        /\ soft_response d = true) ->
  exists d,
    axios_post (t ++ map (fun m => Post (post_args env messages m))
                         (removelast (model :: rest)))%list
               (post_args env messages (last (model :: rest) ""))
    = Resolved d
    /\ fetch_loop env axios_post messages lastError (model :: rest) t
       = (Throw (soft_error (last (model :: rest) "") (displayed_reason d)),
          (t ++ map (fun m => Post (post_args env messages m)) (model :: rest))%list).
Proof.
  induction rest as [| next rest IH]; intros model lastError t Hall.
  - destruct (Hall [] model [] eq_refl) as (d & Hup & Hsoft).
    cbn [map] in Hup. rewrite app_nil_r in Hup.
    exists d. cbn [removelast last map]. rewrite app_nil_r.
    split; [ exact Hup | ].
    rewrite (loop_soft lastError model [] t d Hup Hsoft). reflexivity.
  - destruct (Hall [] model (next :: rest) eq_refl) as (d0 & Hup0 & Hsoft0).
    cbn [map] in Hup0. rewrite app_nil_r in Hup0.
    destruct (IH next (Some (soft_error model (displayed_reason d0)))
                 (t ++ [Post (post_args env messages model)])%list)
      as (d & Hup & Hrun).
    { intros before m after Hsplit.
      destruct (Hall (model :: before) m after) as (d & Hd & Hsoft).
      - cbn [app]. rewrite Hsplit. reflexivity.
      - exists d. rewrite <- app_assoc. split; assumption. }
    exists d.
    change (removelast (model :: next :: rest))
      with (model :: removelast (next :: rest)).
    change (last (model :: next :: rest) "") with (last (next :: rest) "").
    cbn [map]. rewrite <- app_assoc in Hup, Hrun. cbn [app] in Hup, Hrun.
    split; [ exact Hup | ].
    rewrite (loop_soft lastError model (next :: rest) t d0 Hup0 Hsoft0).
    exact Hrun.
Qed.

(** C5. When the attempt of every candidate of a non-empty list is a soft
    failure (no candidate in the response, no text in its first
    candidate, or a completion reason other than 'STOP' and
    'MAX_TOKENS'), [fetchFromModels] posts once per candidate, in list
    order, with no delay in between, and throws the soft failure recorded
    for the last candidate. *)
Theorem all_soft_failures_exhaust models t :
  models <> [] ->
  (forall before m after,
      models = (before ++ m :: after)%list ->
      exists d,
        axios_post (t ++ map (fun m' => Post (post_args env messages m')) before)%list
                   (post_args env messages m)
        = Resolved d
        /\ soft_response d = true) ->
  exists d,
    axios_post (t ++ map (fun m => Post (post_args env messages m))
                         (removelast models))%list
               (post_args env messages (last models ""))
    = Resolved d
    /\ fetchFromModels env axios_post messages models t
       = (Throw (soft_error (last models "") (displayed_reason d)),
          (t ++ map (fun m => Post (post_args env messages m)) models)%list).
Proof.
  intros Hne Hall. destruct models as [| model rest]; [ contradiction | ].
  unfold fetchFromModels. apply loop_all_soft. exact Hall.
Qed.

(** C6. When the first call is rejected with a status other than 400 (500
    when the error carries none) and the second candidate's response
    qualifies, [fetchFromModels] posts twice, waits 500 ms between the two
    calls, and returns the second response. *)
Theorem retry_then_accept model second rest t e d :
  axios_post t (post_args env messages model) = Rejected e ->
  status_or_500 e <> 400 ->
  axios_post (t ++ [Post (post_args env messages model); Delay 500])%list
             (post_args env messages second)
  = Resolved d ->
  accept_response d = true ->
  fetchFromModels env axios_post messages (model :: second :: rest) t
  = (Normal d,
     (t ++ [Post (post_args env messages model); Delay 500;
            Post (post_args env messages second)])%list).
Proof.
  intros Hup1 Hst Hup2 Hacc. unfold fetchFromModels.
  rewrite (loop_retry None model (second :: rest) t e Hup1 Hst).
  rewrite (loop_accept (Some e) second rest _ d Hup2 Hacc).
  rewrite <- app_assoc. reflexivity.
Qed.

(** C10. Only the first entry of [candidates] is looked at: a response whose
    candidates array is empty, or whose first candidate (shaped as the
    upstream documents it) holds no non-empty text segment, is a soft
    failure whatever the later candidates hold and however they finished;
    the loop records it and moves to the next model without a delay. *)
Theorem only_first_candidate_is_inspected lastError model rest t d cs :
  axios_post t (post_args env messages model) = Resolved d ->
  own d "candidates" = JArr cs ->
  (cs = [] \/ exists c later,
      cs = c :: later /\ is_candidate c = true /\ has_text c = false) ->
  inspect model d = Normal (Soft (soft_error model (displayed_reason d)))
  /\ fetch_loop env axios_post messages lastError (model :: rest) t
     = fetch_loop env axios_post messages
                  (Some (soft_error model (displayed_reason d))) rest
                  (t ++ [Post (post_args env messages model)])%list.
Proof.
  intros Hup Hcs Hfirst.
  assert (Hsoft : soft_response d = true).
  { unfold soft_response. rewrite Hcs.
    destruct Hfirst as [-> | (c & later & -> & Hc & Hno)]; [ reflexivity | ].
    rewrite Hc, Hno. reflexivity. }
  split.
  - apply inspect_soft. exact Hsoft.
  - apply loop_soft; assumption.
Qed.

End Executor.

(** ** Properties of the handler *)

(** X22. When every message is an object whose [parts] is a single part
    with a string for text, the size the handler computes is the size of
    the whole conversation. *)
Lemma totalChars_single_part (messages : list JsVal) :
  Forall (fun msg => exists fields ps s,
              msg = JObj fields
              /\ lookup "parts" fields = Some (JArr [JObj ps])
              /\ lookup "text" ps = Some (JStr s)) messages ->
  totalCharsOf (JArr messages) = Normal (NFin (allTextChars messages)).
Proof.
  intro Hall. unfold totalCharsOf.
  assert (Hgen : forall acc,
             reduce addFirstText messages (NFin acc)
             = Normal (NFin (acc + allTextChars messages))).
  { induction Hall as [| msg rest (fields & ps & s & -> & Hparts & Htext) _ IH];
      intro acc.
    - cbn [reduce allTextChars fold_right]. f_equal. f_equal. lia.
    - change (allTextChars (JObj fields :: rest))
        with (fold_right (fun p n => text_length p + n) 0
                         (message_parts (JObj fields))
              + allTextChars rest).
      cbn [reduce].
      unfold addFirstText at 1, message_parts, get, get0.
      cbn [nullish own bind]. rewrite Hparts.
      cbn [nullish own0 own bind text_length fold_right].
      rewrite Htext. cbn [truthy nullish].
      destruct s as [| c s'].
      + cbn [String.eqb negb add num_add bind]. rewrite IH.
        f_equal. f_equal. cbn [String.length]. lia.
      + cbn [String.eqb negb bind].
        change (own (JStr (String c s')) "length")
          with (of_nat (String.length (String c s'))).
        cbn [add of_nat num_add bind].
        rewrite IH. f_equal. f_equal. lia. }
  rewrite (Hgen 0). reflexivity.
Qed.

(** C7. A message with two text parts of two characters each: the whole
    conversation has four characters of text, the handler counts the
    first part only and hands 2 to the prioritizer.  With a short first
    part and a second part of 4001 characters it counts 2 as well, and the
    first model tried is the one for short conversations. *)
Theorem size_counts_first_part_only :
  totalCharsOf Examples.two_parts = Normal (NFin 2)
  /\ allTextChars [Examples.user_message
                     [Examples.text_part "ab"; Examples.text_part "cd"]] = 4
  /\ totalCharsOf Examples.long_second_part = Normal (NFin 2)
  /\ (exists t,
        handler_try Examples.with_key
                    (Examples.always (Resolved (Examples.reply "ok" "STOP")))
                    Examples.long_second_part []
        = (Normal (Examples.reply "ok" "STOP"),
           Post (post_args Examples.with_key Examples.long_second_part
                           "gemini-2.5-flash") :: t)).
Proof.
  split; [ reflexivity | ].
  split; [ reflexivity | ].
  split; [ vm_compute; reflexivity | ].
  exists []. vm_compute. reflexivity.
Qed.

(** C8, as the code has it. A POST request with a body whose [messages] is
    missing (or otherwise falsy), is not an array, or is an empty array is
    answered with status 400 and the validation message, and nothing is
    posted upstream. *)
Theorem missing_messages_rejected env axios_post req t :
  method req = "POST" ->
  nullish (body req) = false ->
  truthy (own (body req) "messages") = false
  \/ isArray (own (body req) "messages") = false
  \/ own (body req) "messages" = JArr [] ->
  handler env axios_post req t
  = (Normal (respond 400 (error_body (JStr MSG_MESSAGES_REQUIRED))), t).
Proof.
  intros Hpost Hbody Hshape. unfold handler, get.
  rewrite Hpost, Hbody. cbn [String.eqb Ascii.eqb Bool.eqb negb].
  destruct Hshape as [H | [H | H]].
  - rewrite H. reflexivity.
  - rewrite H, orb_true_r. reflexivity.
  - rewrite H. reflexivity.
Qed.

Lemma missing_messages_rejected_witness :
  handler Examples.with_key (Examples.always (Resolved (Examples.reply "ok" "STOP")))
          {| method := "POST"; body := JObj [] |} []
  = (Normal (respond 400 (error_body (JStr MSG_MESSAGES_REQUIRED))), []).
Proof.
  apply missing_messages_rejected.
  - reflexivity.
  - reflexivity.
  - left. reflexivity.
Defined.

(** C8 as stated fails: a message that carries an image and no text passes
    the validation, is posted upstream and is answered with status 200. *)
Lemma textless_message_reaches_upstream :
  forallb (fun msg => negb (existsb text_segment (message_parts msg)))
          [Examples.user_message [Examples.image_part]] = true
  /\ handler Examples.with_key
             (Examples.always (Resolved (Examples.reply "ok" "STOP")))
             (Examples.post Examples.image_only) []
     = (Normal (respond 200 (Examples.reply "ok" "STOP")),
        [Post (post_args Examples.with_key Examples.image_only
                         "gemini-2.5-flash")]).
Proof. split; reflexivity. Qed.

(** C9, as the code has it. When the [try] block of the handler throws,
    the response carries the status of the error ([500] when it has none)
    and a message chosen in this order: status 429, the quota message;
    status 400, the bad-request message; code 'ECONNABORTED', the timeout
    message; otherwise the message the upstream sent with the error when
    there is one, and the generic retry-later message when there is
    none. *)
Theorem failure_response_by_category env axios_post req t first others e t' :
  method req = "POST" ->
  get (body req) "messages" = Normal (JArr (first :: others)) ->
  (exists k, GOOGLE_API_KEY env = Some k /\ k <> "") ->
  handler_try env axios_post (JArr (first :: others)) t = (Throw e, t') ->
  exists msg,
    handler env axios_post req t
    = (Normal (respond (status_or_500 e) (error_body msg)), t')
    /\ (status_or_500 e = 429 -> msg = JStr MSG_QUOTA)
    /\ (status_or_500 e = 400 -> msg = JStr MSG_BAD_REQUEST)
    /\ (status_or_500 e <> 429 -> status_or_500 e <> 400 ->
        code e = Some "ECONNABORTED" -> msg = JStr MSG_TIMEOUT)
    /\ (status_or_500 e <> 429 -> status_or_500 e <> 400 ->
        code e <> Some "ECONNABORTED" ->
        truthy (upstream_message e) = true -> msg = upstream_message e)
    /\ (status_or_500 e <> 429 -> status_or_500 e <> 400 ->
        code e <> Some "ECONNABORTED" ->
        truthy (upstream_message e) = false -> msg = JStr MSG_GENERIC).
Proof.
  intros Hpost Hmsgs (k & Hkey & Hk) Htry.
  apply String.eqb_neq in Hk.
  eexists. split.
  - unfold handler. rewrite Hpost, Hmsgs, Hkey, Hk, Htry.
    cbn [String.eqb Ascii.eqb Bool.eqb negb truthy isArray orb own
         strict_eq_int of_nat List.length].
    unfold handler_catch. reflexivity.
  - destruct (Z.eqb_spec (status_or_500 e) 429) as [E429 | N429].
    { repeat split; intros; try reflexivity; try contradiction.
      rewrite E429 in *. discriminate. }
    destruct (Z.eqb_spec (status_or_500 e) 400) as [E400 | N400].
    { repeat split; intros; try reflexivity; contradiction. }
    destruct (code e) as [c |] eqn:Ecode.
    + destruct (String.eqb_spec c "ECONNABORTED") as [-> | Nc].
      * repeat split; intros; try reflexivity; try contradiction.
      * repeat split; intros; try contradiction.
        -- congruence.
        -- destruct (truthy (upstream_message e)); [ reflexivity | discriminate ].
        -- destruct (truthy (upstream_message e)); [ discriminate | reflexivity ].
    + repeat split; intros; try contradiction.
      * discriminate.
      * destruct (truthy (upstream_message e)); [ reflexivity | discriminate ].
      * destruct (truthy (upstream_message e)); [ discriminate | reflexivity ].
Qed.

Lemma failure_response_by_category_witness :
  exists msg,
    fst (handler Examples.with_key (Examples.always (Rejected Examples.overloaded))
                 (Examples.post Examples.hello) [])
    = Normal (respond 503 (error_body msg))
    /\ msg = JStr "The model is overloaded.".
Proof.
  destruct (failure_response_by_category
              Examples.with_key (Examples.always (Rejected Examples.overloaded))
              (Examples.post Examples.hello) []
              (Examples.user_message [Examples.text_part "hi"]) []
              Examples.overloaded
              (snd (handler_try Examples.with_key
                                (Examples.always (Rejected Examples.overloaded))
                                Examples.hello [])))
    as (msg & Hrun & _ & _ & _ & Hupstream & _).
  - reflexivity.
  - reflexivity.
  - exists "test-key". split; [ reflexivity | discriminate ].
  - reflexivity.
  - exists msg. split.
    + rewrite Hrun. reflexivity.
    + apply Hupstream.
      * vm_compute. discriminate.
      * vm_compute. discriminate.
      * vm_compute. discriminate.
      * reflexivity.
Defined.

(** C9 as stated fails: a 503 whose body carries a message is neither a
    429, nor a 400, nor a timeout, and the handler answers with the
    upstream's message, not with the generic one. *)
Lemma upstream_message_replaces_generic :
  status_or_500 Examples.overloaded = 503
  /\ code Examples.overloaded <> Some "ECONNABORTED"
  /\ fst (handler Examples.with_key
                  (Examples.always (Rejected Examples.overloaded))
                  (Examples.post Examples.hello) [])
     = Normal (respond 503 (error_body (JStr "The model is overloaded.")))
  /\ fst (handler Examples.with_key
                  (Examples.always (Rejected Examples.overloaded))
                  (Examples.post Examples.hello) [])
     <> Normal (respond 503 (error_body (JStr MSG_GENERIC))).
Proof.
  split; [ reflexivity | ].
  split; [ discriminate | ].
  split; [ reflexivity | ].
  vm_compute. discriminate.
Qed.

(** *** The executor's properties on concrete runs *)

Lemma first_acceptable_response_wins_witness :
  fetchFromModels Examples.with_key
                  (Examples.always (Resolved (Examples.reply "hola" "STOP")))
                  Examples.hello ["gemini-2.5-flash"; "gemini-pro"] []
  = (Normal (Examples.reply "hola" "STOP"),
     [Post (post_args Examples.with_key Examples.hello "gemini-2.5-flash")]).
Proof.
  apply (first_acceptable_response_wins
           Examples.with_key
           (Examples.always (Resolved (Examples.reply "hola" "STOP")))
           Examples.hello "gemini-2.5-flash" ["gemini-pro"] []).
  - reflexivity.
  - reflexivity.
Defined.

Lemma bad_request_aborts_witness :
  fetchFromModels Examples.with_key
                  (Examples.always (Rejected Examples.invalid_argument))
                  Examples.hello ["gemini-2.5-flash"; "gemini-pro"] []
  = (Throw Examples.invalid_argument,
     [Post (post_args Examples.with_key Examples.hello "gemini-2.5-flash")]).
Proof.
  apply (bad_request_aborts
           Examples.with_key
           (Examples.always (Rejected Examples.invalid_argument))
           Examples.hello "gemini-2.5-flash" "gemini-pro" [] []
           Examples.invalid_argument
           {| status := 400;
              data := JObj [("error", JObj [("message", JStr "Invalid argument.")])] |}).
  - reflexivity.
  - reflexivity.
  - reflexivity.
Defined.

Lemma all_soft_failures_exhaust_witness :
  fetchFromModels Examples.with_key
                  (Examples.always (Resolved (Examples.reply "" "SAFETY")))
                  Examples.hello ["gemini-2.5-flash"; "gemini-pro"] []
  = (Throw (soft_error "gemini-pro" "SAFETY"),
     [Post (post_args Examples.with_key Examples.hello "gemini-2.5-flash");
      Post (post_args Examples.with_key Examples.hello "gemini-pro")]).
Proof.
  destruct (all_soft_failures_exhaust
              Examples.with_key
              (Examples.always (Resolved (Examples.reply "" "SAFETY")))
              Examples.hello ["gemini-2.5-flash"; "gemini-pro"] [])
    as (d & Hlast & Hrun).
  - discriminate.
  - intros before m after _. exists (Examples.reply "" "SAFETY").
    split; reflexivity.
  - rewrite Hrun. injection Hlast as <-. reflexivity.
Defined.

Lemma retry_then_accept_witness :
  fetchFromModels Examples.with_key
                  (Examples.fail_once Examples.overloaded
                                      (Examples.reply "hola" "MAX_TOKENS"))
                  Examples.hello ["gemini-2.5-flash"; "gemini-pro"] []
  = (Normal (Examples.reply "hola" "MAX_TOKENS"),
     [Post (post_args Examples.with_key Examples.hello "gemini-2.5-flash");
      Delay 500;
      Post (post_args Examples.with_key Examples.hello "gemini-pro")]).
Proof.
  apply (retry_then_accept
           Examples.with_key
           (Examples.fail_once Examples.overloaded
                               (Examples.reply "hola" "MAX_TOKENS"))
           Examples.hello "gemini-2.5-flash" "gemini-pro" [] []
           Examples.overloaded).
  - reflexivity.
  - vm_compute. discriminate.
  - reflexivity.
  - reflexivity.
Defined.

Lemma only_first_candidate_is_inspected_witness :
  inspect "gemini-2.5-flash" Examples.reply_in_second_candidate
  = Normal (Soft (soft_error "gemini-2.5-flash" "SAFETY"))
  /\ fetchFromModels Examples.with_key
                     (Examples.always (Resolved Examples.reply_in_second_candidate))
                     Examples.hello ["gemini-2.5-flash"] []
     = (Throw (soft_error "gemini-2.5-flash" "SAFETY"),
        [Post (post_args Examples.with_key Examples.hello "gemini-2.5-flash")]).
Proof.
  destruct (only_first_candidate_is_inspected
              Examples.with_key
              (Examples.always (Resolved Examples.reply_in_second_candidate))
              Examples.hello None "gemini-2.5-flash" [] []
              Examples.reply_in_second_candidate
              [Examples.candidate [] "SAFETY";
               Examples.candidate [Examples.text_part "hola"] "STOP"])
    as (Hinspect & Hloop).
  - reflexivity.
  - reflexivity.
  - right. exists (Examples.candidate [] "SAFETY").
    exists [Examples.candidate [Examples.text_part "hola"] "STOP"].
    repeat split; reflexivity.
  - split.
    + exact Hinspect.
    + unfold fetchFromModels. rewrite Hloop. reflexivity.
Defined.

(** ** Further properties of the executor *)

Section Runs.

Variable env : Env.
Variable axios_post : Upstream.
Variable messages : JsVal.

(** An accepted response is the response inspected. *)
Lemma inspect_returns_its_argument model d d' :
  inspect model d = Normal (Accept d') -> d' = d.
Proof.
  unfold inspect. cbv zeta.
  destruct (hasTextResult (opt_get0 (opt_get d "candidates"))) as [v | e |];
    cbn [bind]; try discriminate.
  destruct (truthy v && _).
  - intro H. injection H as <-. reflexivity.
  - destruct (to_string _); discriminate.
Qed.

(** Reasoning by cases on the turns of the loop: the list is exhausted, the
    response is accepted, it becomes a soft failure and the loop goes on,
    the attempt throws a 400 and the loop stops, it throws anything else
    and the loop goes on after the pause, or the attempt leaves the
    fragment. *)
Lemma fetch_loop_cases
    (P : option JsError -> list string -> Trace
         -> Completion JsVal * Trace -> Prop) :
  (forall lastError t,
      P lastError [] t
        (Throw match lastError with Some e => e | None => no_response_error end,
         t)) ->
  (forall lastError model rest t d,
      axios_post t (post_args env messages model) = Resolved d ->
      inspect model d = Normal (Accept d) ->
      P lastError (model :: rest) t
        (Normal d, (t ++ [Post (post_args env messages model)])%list)) ->
  (forall lastError model rest t e,
      attempt env axios_post messages model t = Normal (Soft e) ->
      P (Some e) rest (t ++ [Post (post_args env messages model)])%list
        (fetch_loop env axios_post messages (Some e) rest
                    (t ++ [Post (post_args env messages model)])%list) ->
      P lastError (model :: rest) t
        (fetch_loop env axios_post messages (Some e) rest
                    (t ++ [Post (post_args env messages model)])%list)) ->
  (forall lastError model rest t e,
      attempt env axios_post messages model t = Throw e ->
      status_or_500 e = 400 ->
      P lastError (model :: rest) t
        (Throw e, (t ++ [Post (post_args env messages model)])%list)) ->
  (forall lastError model rest t e,
      attempt env axios_post messages model t = Throw e ->
      status_or_500 e <> 400 ->
      P (Some e) rest
        (t ++ [Post (post_args env messages model); Delay 500])%list
        (fetch_loop env axios_post messages (Some e) rest
                    (t ++ [Post (post_args env messages model); Delay 500])%list) ->
      P lastError (model :: rest) t
        (fetch_loop env axios_post messages (Some e) rest
                    (t ++ [Post (post_args env messages model); Delay 500])%list)) ->
  (forall lastError model rest t,
      attempt env axios_post messages model t = Unmodelled ->
      P lastError (model :: rest) t
        (Unmodelled, (t ++ [Post (post_args env messages model)])%list)) ->
  forall models lastError t,
    P lastError models t (fetch_loop env axios_post messages lastError models t).
Proof.
  intros Hnil Haccept Hsoft Habort Hretry Hout.
  induction models as [| model rest IH]; intros lastError t.
  - apply Hnil.
  - cbn [fetch_loop].
    change (match axios_post t (post_args env messages model) with
            | Resolved response_data => inspect model response_data
            | Rejected error => Throw error
            end)
      with (attempt env axios_post messages model t).
    destruct (attempt env axios_post messages model t)
      as [ [d | e] | e | ] eqn:Eattempt.
    + unfold attempt in Eattempt.
      destruct (axios_post t (post_args env messages model)) as [d0 | e0] eqn:Eup;
        [ | discriminate Eattempt ].
      pose proof (inspect_returns_its_argument model d0 d Eattempt) as ->.
      apply Haccept; assumption.
    + apply Hsoft; [ exact Eattempt | apply IH ].
    + destruct (Z.eqb_spec (status_or_500 e) 400) as [E400 | N400].
      * apply Habort; assumption.
      * rewrite <- app_assoc. cbn [app].
        apply Hretry; [ exact Eattempt | exact N400 | apply IH ].
    + apply Hout. exact Eattempt.
Qed.

(** What the events of a sequence of attempts are made of. *)
Lemma posts_attempt_events steps :
  posts (attempt_events env messages steps)
  = map (fun step => post_args env messages (fst step)) steps.
Proof.
  induction steps as [| [model paused] steps IH]; [ reflexivity | ].
  unfold attempt_events, posts in *. cbn [flat_map fst snd app map].
  destruct paused; cbn [flat_map app]; rewrite IH; reflexivity.
Qed.

Lemma delays_attempt_events steps :
  Forall (fun ms => ms = 500) (delays (attempt_events env messages steps))
  /\ (List.length (delays (attempt_events env messages steps))
      <= List.length steps)%nat.
Proof.
  induction steps as [| [model paused] steps [IHall IHlen]].
  - split; [ constructor | apply le_n ].
  - unfold attempt_events, delays in *. cbn [flat_map fst snd app].
    destruct paused; cbn [flat_map app List.length].
    + split; [ constructor; [ reflexivity | exact IHall ] | ].
      apply le_n_S. exact IHlen.
    + split; [ exact IHall | ]. apply le_S. exact IHlen.
Qed.

(** The loop posts to the models of the list in their order, one call each,
    stopping somewhere; a pause of 500 ms may follow a call and nothing
    else happens. *)
Lemma loop_follows_the_list models lastError t :
  exists steps untried,
    snd (fetch_loop env axios_post messages lastError models t)
    = (t ++ attempt_events env messages steps)%list
    /\ models = (map fst steps ++ untried)%list
    /\ (models = [] \/ steps <> []).
Proof.
  revert models lastError t.
  apply (fetch_loop_cases
           (fun _ models t out =>
              exists steps untried,
                snd out = (t ++ attempt_events env messages steps)%list
                /\ models = (map fst steps ++ untried)%list
                /\ (models = [] \/ steps <> []))).
  - intros lastError t. exists [], []. cbn. rewrite app_nil_r. auto.
  - intros lastError model rest t d _ _. exists [(model, false)], rest.
    repeat split. right. discriminate.
  - intros lastError model rest t e _ (steps & untried & Htrace & Hlist & _).
    exists ((model, false) :: steps), untried.
    rewrite Htrace, Hlist, <- app_assoc.
    repeat split. right. discriminate.
  - intros lastError model rest t e _ _. exists [(model, false)], rest.
    repeat split. right. discriminate.
  - intros lastError model rest t e _ _ (steps & untried & Htrace & Hlist & _).
    exists ((model, true) :: steps), untried.
    rewrite Htrace, Hlist, <- app_assoc.
    repeat split. right. discriminate.
  - intros lastError model rest t _. exists [(model, false)], rest.
    repeat split. right. discriminate.
Qed.

(** X1. Whatever the upstream answers, [fetchFromModels] posts to the
    models of the list in their order, once each, up to some point of the
    list (at least the first model when there is one); the only other
    events are pauses of 500 ms, each right after a call. *)
Theorem calls_follow_the_list models t :
  exists steps untried,
    snd (fetchFromModels env axios_post messages models t)
    = (t ++ attempt_events env messages steps)%list
    /\ models = (map fst steps ++ untried)%list
    /\ (models = [] \/ steps <> []).
Proof. apply loop_follows_the_list. Qed.

(** An exception of the inspection is a [TypeError] of the runtime: it has
    neither a response nor a code. *)
Lemma some_text_throws ps e :
  some (fun p => get p "text") ps = Throw e ->
  response e = None /\ code e = None.
Proof.
  induction ps as [| p ps IH]; cbn [some]; [ discriminate | ].
  unfold get at 1. destruct (nullish p); cbn [bind].
  - intro H. injection H as <-. split; reflexivity.
  - destruct (truthy (own p "text")); [ discriminate | exact IH ].
Qed.

Lemma inspect_throws model d e :
  inspect model d = Throw e -> response e = None /\ code e = None.
Proof.
  unfold inspect, hasTextResult. cbv zeta.
  destruct (opt_get (opt_get (opt_get0 (opt_get d "candidates")) "content") "parts")
    as [ | | b | n | s | ps | fs ]; cbn [opt_some bind];
    try (intro H; injection H as <-; split; reflexivity);
    try (destruct (truthy JUndefined && _); [ discriminate | ];
         destruct (to_string _); discriminate).
  destruct (some (fun p => get p "text") ps) as [ b | e' | ] eqn:Esome;
    cbn [bind]; try discriminate.
  - destruct (truthy (JBool b) && _); [ discriminate | ].
    destruct (to_string _); discriminate.
  - intro H. injection H as <-. exact (some_text_throws ps e' Esome).
Qed.

(** A soft failure has no response either. *)
Lemma inspect_soft_error model d e :
  inspect model d = Normal (Soft e) -> response e = None /\ code e = None.
Proof.
  unfold inspect. cbv zeta.
  destruct (hasTextResult _) as [v | e' |]; cbn [bind]; try discriminate.
  destruct (truthy v && _); [ discriminate | ].
  destruct (to_string _); [ | discriminate ].
  intro H. injection H as <-. split; reflexivity.
Qed.

(** An error with status 400 can only be the rejection of the call. *)
Lemma attempt_throws_400 model t e :
  attempt env axios_post messages model t = Throw e ->
  status_or_500 e = 400 ->
  axios_post t (post_args env messages model) = Rejected e.
Proof.
  unfold attempt.
  destruct (axios_post t (post_args env messages model)) as [d | e0].
  - intros Hthrow Hst. apply inspect_throws in Hthrow as [Hr _].
    unfold status_or_500 in Hst. rewrite Hr in Hst. discriminate.
  - intros H _. injection H as <-. reflexivity.
Qed.

Lemma attempt_soft_status model t e :
  attempt env axios_post messages model t = Normal (Soft e) ->
  status_or_500 e <> 400.
Proof.
  unfold attempt.
  destruct (axios_post t (post_args env messages model)) as [d | e0];
    [ | discriminate ].
  intro H. apply inspect_soft_error in H as [Hr _].
  unfold status_or_500. rewrite Hr. discriminate.
Qed.


Lemma loop_returns_accepted models lastError t d :
  fst (fetch_loop env axios_post messages lastError models t) = Normal d ->
  exists t0 model,
    In model models
    /\ snd (fetch_loop env axios_post messages lastError models t)
       = (t0 ++ [Post (post_args env messages model)])%list
    /\ axios_post t0 (post_args env messages model) = Resolved d
    /\ inspect model d = Normal (Accept d).
Proof.
  revert models lastError t.
  apply (fetch_loop_cases
           (fun _ models _ out =>
              fst out = Normal d ->
              exists t0 model,
                In model models
                /\ snd out = (t0 ++ [Post (post_args env messages model)])%list
                /\ axios_post t0 (post_args env messages model) = Resolved d
                /\ inspect model d = Normal (Accept d))).
  - intros lastError t H. discriminate H.
  - intros lastError model rest t d0 Hup Hacc H. cbn [fst] in H.
    injection H as ->. exists t, model.
    repeat split; [ left; reflexivity | exact Hup | exact Hacc ].
  - intros lastError model rest t e _ IH H.
    destruct (IH H) as (t0 & m & Hin & Htrace & Hup & Hacc).
    exists t0, m. repeat split; [ right; exact Hin | assumption .. ].
  - intros lastError model rest t e _ _ H. discriminate H.
  - intros lastError model rest t e _ _ IH H.
    destruct (IH H) as (t0 & m & Hin & Htrace & Hup & Hacc).
    exists t0, m. repeat split; [ right; exact Hin | assumption .. ].
  - intros lastError model rest t _ H. discriminate H.
Qed.

(** X2. What [fetchFromModels] returns is always the response to the last
    call it made, to a model of the list, and that response passed the
    acceptance test. *)
Theorem returned_payload_was_accepted models t d t' :
  fetchFromModels env axios_post messages models t = (Normal d, t') ->
  exists t0 model,
    In model models
    /\ t' = (t0 ++ [Post (post_args env messages model)])%list
    /\ axios_post t0 (post_args env messages model) = Resolved d
    /\ inspect model d = Normal (Accept d).
Proof.
  intro Hrun. unfold fetchFromModels in Hrun.
  destruct (loop_returns_accepted models None t d) as (t0 & m & H).
  - rewrite Hrun. reflexivity.
  - rewrite Hrun in H. exists t0, m. exact H.
Qed.

(** A scan of [some] that answers true met a part with a truthy [text]. *)
Lemma some_text_true ps :
  some (fun p => get p "text") ps = Normal true ->
  Exists (fun p => truthy (own p "text") = true) ps.
Proof.
  induction ps as [| p ps IH]; cbn [some]; [ discriminate | ].
  unfold get at 1. destruct (nullish p); cbn [bind]; [ discriminate | ].
  destruct (truthy (own p "text")) eqn:Et.
  - intros _. apply Exists_cons_hd. exact Et.
  - intro H. apply Exists_cons_tl. apply IH. exact H.
Qed.

(** X3. A response is accepted only if the first entry of its candidates
    finished with 'STOP' or 'MAX_TOKENS' and has, in [content.parts], an
    array with a part whose [text] is truthy; what is accepted is the
    response itself. *)
Theorem accepted_response_has_text_and_reason model d d' :
  inspect model d = Normal (Accept d') ->
  d' = d
  /\ finished (opt_get0 (opt_get d "candidates")) = true
  /\ exists ps,
       opt_get (opt_get (opt_get0 (opt_get d "candidates")) "content") "parts"
       = JArr ps
       /\ Exists (fun p => truthy (own p "text") = true) ps.
Proof.
  intro Hacc. split; [ exact (inspect_returns_its_argument model d d' Hacc) | ].
  revert Hacc. unfold inspect, hasTextResult. cbv zeta.
  set (c := opt_get0 (opt_get d "candidates")).
  rewrite finished_strict_eq.
  destruct (opt_get (opt_get c "content") "parts")
    as [ | | b | n | s | ps | fs ]; cbn [opt_some bind truthy andb];
    try discriminate;
    try (destruct (to_string _); discriminate).
  destruct (some (fun p => get p "text") ps) as [ [ | ] | e | ] eqn:Esome;
    cbn [bind truthy andb]; try discriminate;
    try (destruct (to_string _); discriminate).
  destruct (finished c).
  - intros _. split; [ reflexivity | ].
    exists ps. split; [ reflexivity | exact (some_text_true ps Esome) ].
  - destruct (to_string _); discriminate.
Qed.

Lemma loop_throws_400 models lastError t e :
  (forall e0, lastError = Some e0 -> status_or_500 e0 <> 400) ->
  fst (fetch_loop env axios_post messages lastError models t) = Throw e ->
  status_or_500 e = 400 ->
  exists t0 model,
    In model models
    /\ snd (fetch_loop env axios_post messages lastError models t)
       = (t0 ++ [Post (post_args env messages model)])%list
    /\ axios_post t0 (post_args env messages model) = Rejected e.
Proof.
  revert models lastError t.
  apply (fetch_loop_cases
           (fun lastError models _ out =>
              (forall e0, lastError = Some e0 -> status_or_500 e0 <> 400) ->
              fst out = Throw e ->
              status_or_500 e = 400 ->
              exists t0 model,
                In model models
                /\ snd out = (t0 ++ [Post (post_args env messages model)])%list
                /\ axios_post t0 (post_args env messages model) = Rejected e)).
  - intros lastError t Hlast H Hst. cbn [fst] in H. injection H as <-.
    destruct lastError as [e0 |].
    + exfalso. exact (Hlast e0 eq_refl Hst).
    + discriminate Hst.
  - intros lastError model rest t d _ _ _ H. discriminate H.
  - intros lastError model rest t e0 Hatt IH _ H Hst.
    destruct (IH (fun e1 E => ltac:(injection E as <-;
                                    exact (attempt_soft_status model t e0 Hatt)))
                 H Hst)
      as (t0 & m & Hin & Htrace & Hup).
    exists t0, m. repeat split; [ right; exact Hin | assumption .. ].
  - intros lastError model rest t e0 Hatt Hst0 _ H _. cbn [fst] in H.
    injection H as ->. exists t, model.
    repeat split; [ left; reflexivity | ].
    exact (attempt_throws_400 model t e Hatt Hst0).
  - intros lastError model rest t e0 Hatt Hst0 IH _ H Hst.
    destruct (IH (fun e1 E => ltac:(injection E as <-; exact Hst0)) H Hst)
      as (t0 & m & Hin & Htrace & Hup).
    exists t0, m. repeat split; [ right; exact Hin | assumption .. ].
  - intros lastError model rest t _ _ H. discriminate H.
Qed.

(** X4. When [fetchFromModels] throws an error with status 400, that error
    is the rejection of the last call it made: nothing was tried after
    it, and no pause followed. *)
Theorem bad_request_is_the_last_call models t e t' :
  fetchFromModels env axios_post messages models t = (Throw e, t') ->
  status_or_500 e = 400 ->
  exists t0 model,
    In model models
    /\ t' = (t0 ++ [Post (post_args env messages model)])%list
    /\ axios_post t0 (post_args env messages model) = Rejected e.
Proof.
  intros Hrun Hst. unfold fetchFromModels in Hrun.
  destruct (loop_throws_400 models None t e) as (t0 & m & H).
  - intros e0 E. discriminate E.
  - rewrite Hrun. reflexivity.
  - exact Hst.
  - rewrite Hrun in H. exists t0, m. exact H.
Qed.

Lemma loop_exhausts models lastError t e :
  fst (fetch_loop env axios_post messages lastError models t) = Throw e ->
  status_or_500 e <> 400 ->
  exists events,
    snd (fetch_loop env axios_post messages lastError models t)
    = (t ++ events)%list
    /\ posts events = map (post_args env messages) models.
Proof.
  revert models lastError t.
  apply (fetch_loop_cases
           (fun _ models t out =>
              fst out = Throw e ->
              status_or_500 e <> 400 ->
              exists events,
                snd out = (t ++ events)%list
                /\ posts events = map (post_args env messages) models)).
  - intros lastError t _ _. exists []. rewrite app_nil_r. split; reflexivity.
  - intros lastError model rest t d _ _ H. discriminate H.
  - intros lastError model rest t e0 _ IH H Hst.
    destruct (IH H Hst) as (events & Htrace & Hposts).
    exists (Post (post_args env messages model) :: events).
    rewrite Htrace, <- app_assoc. split; [ reflexivity | ].
    unfold posts in *. cbn [flat_map app map]. rewrite Hposts. reflexivity.
  - intros lastError model rest t e0 _ Hst0 H Hst. cbn [fst] in H.
    injection H as ->. contradiction.
  - intros lastError model rest t e0 _ _ IH H Hst.
    destruct (IH H Hst) as (events & Htrace & Hposts).
    exists (Post (post_args env messages model) :: Delay 500 :: events).
    rewrite Htrace, <- app_assoc. split; [ reflexivity | ].
    unfold posts in *. cbn [flat_map app map]. rewrite Hposts. reflexivity.
  - intros lastError model rest t _ H. discriminate H.
Qed.

(** X5. When [fetchFromModels] throws an error whose status is not 400, it
    has posted to every model of the list, once each and in order. *)
Theorem exhaustion_tries_every_model models t e t' :
  fetchFromModels env axios_post messages models t = (Throw e, t') ->
  status_or_500 e <> 400 ->
  exists events,
    t' = (t ++ events)%list
    /\ posts events = map (post_args env messages) models.
Proof.
  intros Hrun Hst. unfold fetchFromModels in Hrun.
  destruct (loop_exhausts models None t e) as (events & H).
  - rewrite Hrun. reflexivity.
  - exact Hst.
  - rewrite Hrun in H. exists events. exact H.
Qed.


Lemma loop_all_retryable rest :
  forall model lastError t,
  (forall before m after,
      model :: rest = (before ++ m :: after)%list ->
      exists e,
        axios_post
          (t ++ attempt_events env messages (map (fun m' => (m', true)) before))%list
          (post_args env messages m)
        = Rejected e
        /\ status_or_500 e <> 400) ->
  exists e,
    axios_post
      (t ++ attempt_events env messages
              (map (fun m => (m, true)) (removelast (model :: rest))))%list
      (post_args env messages (last (model :: rest) ""))
    = Rejected e
    /\ fetch_loop env axios_post messages lastError (model :: rest) t
       = (Throw e,
          (t ++ attempt_events env messages
                  (map (fun m => (m, true)) (model :: rest)))%list).
Proof.
  induction rest as [| next rest IH]; intros model lastError t Hall.
  - destruct (Hall [] model [] eq_refl) as (e & Hup & Hst).
    cbn [map attempt_events flat_map] in Hup. rewrite app_nil_r in Hup.
    exists e. cbn [removelast last map attempt_events flat_map].
    rewrite app_nil_r. split; [ exact Hup | ].
    rewrite (loop_retry env axios_post messages lastError model [] t e Hup Hst).
    reflexivity.
  - destruct (Hall [] model (next :: rest) eq_refl) as (e0 & Hup0 & Hst0).
    cbn [map attempt_events flat_map] in Hup0. rewrite app_nil_r in Hup0.
    destruct (IH next (Some e0)
                 (t ++ [Post (post_args env messages model); Delay 500])%list)
      as (e & Hup & Hrun).
    { intros before m after Hsplit.
      destruct (Hall (model :: before) m after) as (e & He & Hst).
      - cbn [app]. rewrite Hsplit. reflexivity.
      - exists e. rewrite <- app_assoc. split; assumption. }
    exists e.
    change (removelast (model :: next :: rest))
      with (model :: removelast (next :: rest)).
    change (last (model :: next :: rest) "") with (last (next :: rest) "").
    rewrite <- app_assoc in Hup, Hrun.
    split; [ exact Hup | ].
    rewrite (loop_retry env axios_post messages lastError model (next :: rest)
                        t e0 Hup0 Hst0).
    exact Hrun.
Qed.

(** X6. When the call to every model of a non-empty list is rejected with a
    status other than 400, [fetchFromModels] posts once per model, in list
    order, waits 500 ms after every call, the last one included, and
    throws the rejection of the last call. *)
Theorem all_retryable_failures_exhaust models t :
  models <> [] ->
  (forall before m after,
      models = (before ++ m :: after)%list ->
      exists e,
        axios_post
          (t ++ attempt_events env messages (map (fun m' => (m', true)) before))%list
          (post_args env messages m)
        = Rejected e
        /\ status_or_500 e <> 400) ->
  exists e,
    axios_post
      (t ++ attempt_events env messages
              (map (fun m => (m, true)) (removelast models)))%list
      (post_args env messages (last models ""))
    = Rejected e
    /\ fetchFromModels env axios_post messages models t
       = (Throw e,
          (t ++ attempt_events env messages
                  (map (fun m => (m, true)) models))%list).
Proof.
  intros Hne Hall. destruct models as [| model rest]; [ contradiction | ].
  unfold fetchFromModels. apply loop_all_retryable. exact Hall.
Qed.

(** X7. A response whose first candidate has, for [content.parts], a value
    that is neither missing nor an array makes the inspection throw; the
    loop treats it as a failed call: it records the exception, which has
    no status, waits 500 ms and goes on with the next model. *)
Theorem malformed_response_is_retried lastError model rest t d :
  axios_post t (post_args env messages model) = Resolved d ->
  nullish
    (opt_get (opt_get (opt_get0 (opt_get d "candidates")) "content") "parts")
  = false ->
  isArray
    (opt_get (opt_get (opt_get0 (opt_get d "candidates")) "content") "parts")
  = false ->
  exists e,
    response e = None
    /\ fetch_loop env axios_post messages lastError (model :: rest) t
       = fetch_loop env axios_post messages (Some e) rest
                    (t ++ [Post (post_args env messages model); Delay 500])%list.
Proof.
  intros Hup Hnull Harr.
  exists (TypeError "candidate?.content?.parts?.some is not a function").
  split; [ reflexivity | ].
  cbn [fetch_loop]. rewrite Hup.
  unfold inspect, hasTextResult. cbv zeta.
  destruct (opt_get (opt_get (opt_get0 (opt_get d "candidates")) "content") "parts")
    as [ | | b | n | s | ps | fs ];
    try discriminate Hnull; try discriminate Harr;
    cbn [opt_some bind]; rewrite <- app_assoc; reflexivity.
Qed.

End Runs.

(** ** Further properties of the handler *)

Section Handling.

Variable env : Env.
Variable axios_post : Upstream.

(** Past the validation and the check of the key, the handler is its [try]
    block and its [catch] block. *)
Lemma handler_valid req t m ms k :
  method req = "POST" ->
  own (body req) "messages" = JArr (m :: ms) ->
  GOOGLE_API_KEY env = Some k ->
  k <> "" ->
  handler env axios_post req t
  = match handler_try env axios_post (JArr (m :: ms)) t with
    | (Normal responseData, t') => (Normal (respond 200 responseData), t')
    | (Throw error, t') => (Normal (handler_catch error), t')
    | (Unmodelled, t') => (Unmodelled, t')
    end.
Proof.
  intros Hpost Hmsgs Hkey Hk. apply String.eqb_neq in Hk.
  assert (Hbody : nullish (body req) = false).
  { destruct (body req); try reflexivity; discriminate Hmsgs. }
  unfold handler, get. rewrite Hpost, Hbody, Hmsgs, Hkey, Hk. reflexivity.
Qed.

(** The validation of [messages] lets through the non-empty arrays and
    nothing else. *)
Lemma validation_guard v :
  negb (truthy v) || negb (isArray v) || strict_eq_int (own v "length") 0
  = match v with
    | JArr (_ :: _) => false
    | _ => true
    end.
Proof.
  destruct v as [ | | b | n | s | [| m ms] | fs ]; try reflexivity;
    cbn [isArray negb]; rewrite orb_true_r; reflexivity.
Qed.

(** Either the request is a POST with a non-empty array for [messages] and
    the key is set, or the handler ends where it started, and then it
    throws exactly when the request is a POST without a body. *)
Lemma handler_early req t :
  (method req = "POST"
   /\ exists m ms k,
        own (body req) "messages" = JArr (m :: ms)
        /\ GOOGLE_API_KEY env = Some k /\ k <> "")
  \/ (snd (handler env axios_post req t) = t
      /\ ((exists e, fst (handler env axios_post req t) = Throw e)
          <-> method req = "POST" /\ nullish (body req) = true)).
Proof.
  unfold handler, get.
  destruct (String.eqb_spec (method req) "POST") as [Hpost | Hother];
    cbn [negb].
  2: { right. split; [ reflexivity | ]. split.
       - intros (e & H). discriminate H.
       - intros (Hpost & _). contradiction. }
  destruct (nullish (body req)) eqn:Hbody.
  { right. split; [ reflexivity | ]. split; [ auto | ].
    intros _. eexists. reflexivity. }
  rewrite validation_guard.
  destruct (own (body req) "messages") as [ | | b | n | s | [| m ms] | fs ] eqn:Hmsgs;
    try (right; split; [ reflexivity | ]; split;
         [ intros (e & H); discriminate H | intros (_ & H); discriminate H ]).
  destruct (GOOGLE_API_KEY env) as [k |] eqn:Hkey.
  - destruct (String.eqb_spec k "") as [-> | Hk].
    + right. split; [ reflexivity | ]. split.
      * intros (e & H). discriminate H.
      * intros (_ & H). discriminate H.
    + left. split; [ exact Hpost | ]. exists m, ms, k. auto.
  - right. split; [ reflexivity | ]. split.
    + intros (e & H). discriminate H.
    + intros (_ & H). discriminate H.
Qed.

(** The trace of the handler is the trace of its [try] block. *)
Lemma handler_valid_trace req t m ms k :
  method req = "POST" ->
  own (body req) "messages" = JArr (m :: ms) ->
  GOOGLE_API_KEY env = Some k ->
  k <> "" ->
  snd (handler env axios_post req t)
  = snd (handler_try env axios_post (JArr (m :: ms)) t)
  /\ forall e, fst (handler env axios_post req t) <> Throw e.
Proof.
  intros Hpost Hmsgs Hkey Hk.
  rewrite (handler_valid req t m ms k Hpost Hmsgs Hkey Hk).
  destruct (handler_try env axios_post (JArr (m :: ms)) t) as [[d | e |] t'];
    split; try reflexivity; intros e' H; discriminate H.
Qed.

(** X8. The handler posts upstream, or pauses, only for a POST request
    whose [messages] is a non-empty array and with a non-empty API key in
    the environment. *)
Theorem upstream_contact_requires_valid_request req t :
  snd (handler env axios_post req t) <> t ->
  method req = "POST"
  /\ exists m ms k,
       own (body req) "messages" = JArr (m :: ms)
       /\ GOOGLE_API_KEY env = Some k /\ k <> "".
Proof.
  intro Hmoved.
  destruct (handler_early req t) as [Hvalid | [Hsame _]];
    [ exact Hvalid | contradiction ].
Qed.

(** X9. The handler lets an exception escape in one case only: a POST
    request whose body is [null] or [undefined], on which the
    destructuring of [req.body] throws before the [try]; every other
    failure is turned into a response. *)
Theorem handler_throws_only_without_body req t :
  (exists e, fst (handler env axios_post req t) = Throw e)
  <-> method req = "POST" /\ nullish (body req) = true.
Proof.
  destruct (handler_early req t)
    as [(Hpost & m & ms & k & Hmsgs & Hkey & Hk) | [_ Hiff]];
    [ | exact Hiff ].
  destruct (handler_valid_trace req t m ms k Hpost Hmsgs Hkey Hk) as [_ Hno].
  split.
  - intros (e & H). exfalso. exact (Hno e H).
  - intros (_ & Hbody). exfalso.
    destruct (body req); try discriminate Hbody; discriminate Hmsgs.
Qed.

(** X10. A POST request with a non-empty array of messages, when the API
    key is missing from the environment or empty, is answered with
    status 500 and the configuration message, and nothing is posted. *)
Theorem missing_key_is_config_error req t m ms :
  method req = "POST" ->
  own (body req) "messages" = JArr (m :: ms) ->
  GOOGLE_API_KEY env = None \/ GOOGLE_API_KEY env = Some "" ->
  handler env axios_post req t
  = (Normal (respond 500 (error_body
               (JStr "Error de configuración del servidor."))), t).
Proof.
  intros Hpost Hmsgs Hkey.
  assert (Hbody : nullish (body req) = false).
  { destruct (body req); try reflexivity; discriminate Hmsgs. }
  unfold handler, get. rewrite Hpost, Hbody, validation_guard, Hmsgs.
  destruct Hkey as [-> | ->]; reflexivity.
Qed.

(** X11. When the first message is [null], has no [parts], or has an empty
    [parts], the size computation throws inside the [try]: the request is
    answered with status 500 and the generic message, not with the
    validation failure, and nothing is posted. *)
Theorem first_message_without_parts_is_server_error req t m ms k :
  method req = "POST" ->
  own (body req) "messages" = JArr (m :: ms) ->
  GOOGLE_API_KEY env = Some k ->
  k <> "" ->
  nullish m = true \/ nullish (own m "parts") = true
  \/ nullish (own0 (own m "parts")) = true ->
  handler env axios_post req t
  = (Normal (respond 500 (error_body (JStr MSG_GENERIC))), t).
Proof.
  intros Hpost Hmsgs Hkey Hk Hshape.
  rewrite (handler_valid req t m ms k Hpost Hmsgs Hkey Hk).
  unfold handler_try, totalCharsOf. cbn [reduce].
  unfold addFirstText at 1, get at 1.
  destruct (nullish m) eqn:Hm; cbn [bind]; [ reflexivity | ].
  unfold get0 at 1.
  destruct (nullish (own m "parts")) eqn:Hparts; cbn [bind]; [ reflexivity | ].
  unfold get at 1.
  destruct (nullish (own0 (own m "parts"))) eqn:Hpart0; cbn [bind];
    [ reflexivity | ].
  destruct Hshape as [H | [H | H]]; discriminate H.
Qed.

(** X14. One request makes at most five upstream calls; the only other
    events are pauses of 500 ms, never more of them than calls; and what
    was in the trace before stays. *)
Theorem at_most_five_calls_per_request req t :
  exists events,
    snd (handler env axios_post req t) = (t ++ events)%list
    /\ (List.length (posts events) <= 5)%nat
    /\ (List.length (delays events) <= List.length (posts events))%nat
    /\ Forall (fun ms => ms = 500) (delays events).
Proof.
  destruct (handler_early req t)
    as [(Hpost & m & ms & k & Hmsgs & Hkey & Hk) | [Hsame _]].
  2: { exists []. rewrite Hsame, app_nil_r.
       repeat split; [ apply Nat.le_0_l | apply le_n | constructor ]. }
  destruct (handler_valid_trace req t m ms k Hpost Hmsgs Hkey Hk) as [-> _].
  unfold handler_try.
  destruct (totalCharsOf (JArr (m :: ms))) as [n | e |].
  2, 3: exists []; cbn [snd]; rewrite app_nil_r;
        repeat split; [ apply Nat.le_0_l | apply le_n | constructor ].
  destruct (loop_follows_the_list env axios_post (JArr (m :: ms))
              (getDynamicModelList n) None t)
    as (steps & untried & Htrace & Hlist & _).
  exists (attempt_events env (JArr (m :: ms)) steps).
  split; [ exact Htrace | ].
  rewrite posts_attempt_events, length_map.
  assert (Hfive : (List.length steps <= 5)%nat).
  { apply (f_equal (@List.length string)) in Hlist.
    rewrite length_app, length_map in Hlist.
    assert (Hlen : List.length (getDynamicModelList n) = 5%nat)
      by (unfold getDynamicModelList; destruct (gt n THRESHOLD); reflexivity).
    rewrite Hlen in Hlist. lia. }
  destruct (delays_attempt_events env (JArr (m :: ms)) steps) as [Hall Hlen].
  repeat split; assumption.
Qed.

(** The first event of the loop on a non-empty list is the call to its
    first model. *)
Lemma loop_first_call messages model rest lastError t :
  exists later,
    snd (fetch_loop env axios_post messages lastError (model :: rest) t)
    = (t ++ Post (post_args env messages model) :: later)%list.
Proof.
  destruct (loop_follows_the_list env axios_post messages (model :: rest)
                                  lastError t)
    as (steps & untried & Htrace & Hlist & Hsome).
  destruct steps as [| [first paused] steps].
  - destruct Hsome as [H | H]; [ discriminate H | contradiction ].
  - cbn [map fst app] in Hlist. injection Hlist as <- _.
    rewrite Htrace. unfold attempt_events. cbn [flat_map fst snd app].
    eexists. reflexivity.
Qed.

(** X13. For a request that passes the validation and whose size
    computes, the first call goes to 'gemini-2.5-pro' when the size is
    above 4000 and to 'gemini-2.5-flash' otherwise, a size of [NaN]
    included. *)
Theorem first_attempt_follows_size req t m ms k totalChars :
  method req = "POST" ->
  own (body req) "messages" = JArr (m :: ms) ->
  GOOGLE_API_KEY env = Some k ->
  k <> "" ->
  totalCharsOf (JArr (m :: ms)) = Normal totalChars ->
  exists later,
    snd (handler env axios_post req t)
    = (t ++ Post (post_args env (JArr (m :: ms))
                            (if gt totalChars THRESHOLD
                             then "gemini-2.5-pro" else "gemini-2.5-flash"))
         :: later)%list.
Proof.
  intros Hpost Hmsgs Hkey Hk Hsize.
  destruct (handler_valid_trace req t m ms k Hpost Hmsgs Hkey Hk) as [-> _].
  unfold handler_try, fetchFromModels. rewrite Hsize.
  unfold getDynamicModelList.
  destruct (gt totalChars THRESHOLD); apply loop_first_call.
Qed.

(** X15. For a request that passes the validation and whose size
    computes, when the first call is rejected with status 400 the handler
    answers with status 400 and the bad-request message after that single
    call. *)
Theorem upstream_400_surfaces_as_bad_request req t m ms k totalChars e :
  method req = "POST" ->
  own (body req) "messages" = JArr (m :: ms) ->
  GOOGLE_API_KEY env = Some k ->
  k <> "" ->
  totalCharsOf (JArr (m :: ms)) = Normal totalChars ->
  axios_post t (post_args env (JArr (m :: ms))
                          (hd "" (getDynamicModelList totalChars)))
  = Rejected e ->
  status_or_500 e = 400 ->
  handler env axios_post req t
  = (Normal (respond 400 (error_body (JStr MSG_BAD_REQUEST))),
     (t ++ [Post (post_args env (JArr (m :: ms))
                            (hd "" (getDynamicModelList totalChars)))])%list).
Proof.
  intros Hpost Hmsgs Hkey Hk Hsize Hup Hst.
  rewrite (handler_valid req t m ms k Hpost Hmsgs Hkey Hk).
  unfold handler_try, fetchFromModels. rewrite Hsize.
  revert Hup. unfold getDynamicModelList.
  destruct (gt totalChars THRESHOLD); cbn [hd at_index nth ALL_MODELS];
    intro Hup; cbn [fetch_loop]; rewrite Hup, Hst; cbn [Z.eqb Pos.eqb];
    unfold handler_catch; rewrite Hst; reflexivity.
Qed.

(** X16. For a request that passes the validation and whose size
    computes, when the response to the first call qualifies the handler
    answers with status 200 and that response as it came, after that
    single call. *)
Theorem accepted_response_is_forwarded req t m ms k totalChars d :
  method req = "POST" ->
  own (body req) "messages" = JArr (m :: ms) ->
  GOOGLE_API_KEY env = Some k ->
  k <> "" ->
  totalCharsOf (JArr (m :: ms)) = Normal totalChars ->
  axios_post t (post_args env (JArr (m :: ms))
                          (hd "" (getDynamicModelList totalChars)))
  = Resolved d ->
  accept_response d = true ->
  handler env axios_post req t
  = (Normal (respond 200 d),
     (t ++ [Post (post_args env (JArr (m :: ms))
                            (hd "" (getDynamicModelList totalChars)))])%list).
Proof.
  intros Hpost Hmsgs Hkey Hk Hsize Hup Hacc.
  rewrite (handler_valid req t m ms k Hpost Hmsgs Hkey Hk).
  unfold handler_try, fetchFromModels. rewrite Hsize.
  revert Hup. unfold getDynamicModelList.
  destruct (gt totalChars THRESHOLD); cbn [hd at_index nth ALL_MODELS];
    intro Hup;
    rewrite (loop_accept env axios_post (JArr (m :: ms)) None _ _ t d Hup Hacc);
    reflexivity.
Qed.

(** X17. For a request that passes the validation and whose size
    computes, when the upstream rejects every call with the same error,
    whose status is not 400, the handler posts to the five models in the
    chosen order, waits 500 ms after each call (2.5 s in all), and answers
    from that error. *)
Theorem persistent_failure_costs_five_attempts req t m ms k totalChars e :
  method req = "POST" ->
  own (body req) "messages" = JArr (m :: ms) ->
  GOOGLE_API_KEY env = Some k ->
  k <> "" ->
  totalCharsOf (JArr (m :: ms)) = Normal totalChars ->
  (forall t' call, axios_post t' call = Rejected e) ->
  status_or_500 e <> 400 ->
  handler env axios_post req t
  = (Normal (handler_catch e),
     (t ++ attempt_events env (JArr (m :: ms))
             (map (fun model => (model, true))
                  (getDynamicModelList totalChars)))%list)
  /\ List.length
       (posts (attempt_events env (JArr (m :: ms))
                 (map (fun model => (model, true))
                      (getDynamicModelList totalChars)))) = 5%nat
  /\ fold_right Z.add 0
       (delays (attempt_events env (JArr (m :: ms))
                  (map (fun model => (model, true))
                       (getDynamicModelList totalChars)))) = 2500.
Proof.
  intros Hpost Hmsgs Hkey Hk Hsize Hall Hst.
  split.
  - rewrite (handler_valid req t m ms k Hpost Hmsgs Hkey Hk).
    unfold handler_try, fetchFromModels. rewrite Hsize.
    assert (Hlist : exists model rest,
               getDynamicModelList totalChars = model :: rest).
    { unfold getDynamicModelList.
      destruct (gt totalChars THRESHOLD); eexists; eexists; reflexivity. }
    destruct Hlist as (model & rest & ->).
    destruct (loop_all_retryable env axios_post (JArr (m :: ms)) rest model None t)
      as (e' & Hlast & Hrun).
    { intros before m' after _. exists e. split; [ apply Hall | exact Hst ]. }
    rewrite Hall in Hlast. injection Hlast as <-.
    rewrite Hrun. reflexivity.
  - unfold getDynamicModelList.
    destruct (gt totalChars THRESHOLD); split; reflexivity.
Qed.

(** X18. Every response sent by the exported function starts with the
    four CORS headers.  A preflight (OPTIONS) request gets status 200
    with no body and the handler does not run; for any other request the
    status, the body, the further headers and the trace are the
    handler's. *)
Theorem cors_headers_on_every_response req t r t' :
  exports env axios_post req t = (Normal r, t') ->
  (exists further, resHeaders r = (CORS_HEADERS ++ further)%list)
  /\ ((method req = "OPTIONS"
       /\ statusCode r = 200 /\ json r = None /\ t' = t)
      \/ (method req <> "OPTIONS"
          /\ exists r0,
               handler env axios_post req t = (Normal r0, t')
               /\ statusCode r = statusCode r0
               /\ json r = json r0
               /\ resHeaders r = (CORS_HEADERS ++ resHeaders r0)%list)).
Proof.
  unfold exports, allowCors.
  destruct (String.eqb_spec (method req) "OPTIONS") as [Hopt | Hother].
  - intro H. injection H as <- <-.
    split; [ exists []; symmetry; apply app_nil_r | ].
    left. repeat split. exact Hopt.
  - destruct (handler env axios_post req t) as [[r0 | e |] t0];
      intro H; try discriminate H.
    injection H as <- <-.
    split; [ exists (resHeaders r0); reflexivity | ].
    right. split; [ exact Hother | ].
    exists r0. repeat split.
Qed.

(** X19. A request whose method is neither POST nor OPTIONS is answered
    with status 405, the CORS headers followed by [Allow: POST], and the
    method-not-allowed message; nothing is posted. *)
Theorem other_methods_not_allowed req t :
  method req <> "POST" ->
  method req <> "OPTIONS" ->
  exports env axios_post req t
  = (Normal {| statusCode := 405;
               resHeaders := (CORS_HEADERS ++ [("Allow", JArr [JStr "POST"])])%list;
               json := Some (error_body (JStr "Método no permitido")) |},
     t).
Proof.
  intros Hpost Hopt. unfold exports, allowCors, handler.
  apply String.eqb_neq in Hpost, Hopt. rewrite Hpost, Hopt. reflexivity.
Qed.

End Handling.

(** *** The size of the conversation *)

Lemma text_length_nonneg p : 0 <= text_length p.
Proof.
  unfold text_length.
  destruct p as [ | | b | n | s | elems | fields ]; try apply Z.le_refl.
  destruct (lookup "text" fields) as [ [ | | b | n | s | elems | fs ] | ];
    try apply Z.le_refl.
  apply Nat2Z.is_nonneg.
Qed.

Lemma parts_length_nonneg ps :
  0 <= fold_right (fun p n => text_length p + n) 0 ps.
Proof.
  induction ps as [| p ps IH]; cbn [fold_right]; [ apply Z.le_refl | ].
  pose proof (text_length_nonneg p). lia.
Qed.

(** The callback of the reduce on a message whose first part is well
    formed. *)
Lemma addFirstText_first_part acc fields p ps :
  lookup "parts" fields = Some (JArr (p :: ps)) ->
  is_part p = true ->
  addFirstText (NFin acc) (JObj fields) = Normal (NFin (acc + text_length p)).
Proof.
  intros Hparts Hp.
  unfold addFirstText, get, get0. cbn [nullish own bind]. rewrite Hparts.
  cbn [nullish own0 bind].
  destruct p as [ | | b | n | s | elems | pfields ]; try discriminate Hp.
  unfold is_part in Hp. cbn [nullish own text_length].
  destruct (lookup "text" pfields) as [ [ | | b | n | s | elems | fs ] | ];
    try discriminate Hp; cbn [truthy bind add num_add].
  - destruct s as [| c s'].
    + cbn [String.eqb negb add num_add String.length Z.of_nat]. reflexivity.
    + cbn [String.eqb negb nullish bind].
      change (own (JStr (String c s')) "length")
        with (of_nat (String.length (String c s'))).
      reflexivity.
  - reflexivity.
Qed.

(** X12. When every message is an object whose [parts] is a non-empty
    array starting with a well-formed part, the size handed to the
    prioritizer is the sum of the lengths of the first parts' texts; it
    is never more than the length of all the text of the conversation. *)
Theorem size_is_sum_of_first_parts (messages : list JsVal) :
  Forall (fun msg => exists fields p ps,
              msg = JObj fields
              /\ lookup "parts" fields = Some (JArr (p :: ps))
              /\ is_part p = true) messages ->
  totalCharsOf (JArr messages) = Normal (NFin (firstTextChars messages))
  /\ 0 <= firstTextChars messages <= allTextChars messages.
Proof.
  intro Hall. split.
  - unfold totalCharsOf.
    assert (Hgen : forall acc,
               reduce addFirstText messages (NFin acc)
               = Normal (NFin (acc + firstTextChars messages))).
    { induction Hall as [| msg rest (fields & p & ps & -> & Hparts & Hp) _ IH];
        intro acc.
      - cbn [reduce firstTextChars fold_right]. rewrite Z.add_0_r. reflexivity.
      - cbn [reduce]. rewrite (addFirstText_first_part acc fields p ps Hparts Hp).
        cbn [bind]. rewrite IH.
        change (firstTextChars (JObj fields :: rest))
          with (match message_parts (JObj fields) with
                | q :: _ => text_length q
                | [] => 0
                end + firstTextChars rest).
        unfold message_parts. cbn [own]. rewrite Hparts.
        rewrite Z.add_assoc. reflexivity. }
    rewrite (Hgen 0). reflexivity.
  - induction Hall as [| msg rest (fields & p & ps & -> & Hparts & Hp) _ IH].
    + cbn. lia.
    + change (firstTextChars (JObj fields :: rest))
        with (match message_parts (JObj fields) with
              | q :: _ => text_length q
              | [] => 0
              end + firstTextChars rest).
      change (allTextChars (JObj fields :: rest))
        with (fold_right (fun q n => text_length q + n) 0
                         (message_parts (JObj fields))
              + allTextChars rest).
      unfold message_parts. cbn [own]. rewrite Hparts. cbn [fold_right].
      pose proof (text_length_nonneg p).
      pose proof (parts_length_nonneg ps). lia.
Qed.

(** *** What the executor throws, and what the client sees of it *)

Section Failures.

Variable env : Env.
Variable axios_post : Upstream.

Lemma loop_throws_last_attempt messages models lastError t e :
  fst (fetch_loop env axios_post messages lastError models t) = Throw e ->
  (models = []
   /\ e = match lastError with Some e0 => e0 | None => no_response_error end)
  \/ exists t0 model,
       In model models
       /\ (attempt env axios_post messages model t0 = Throw e
           \/ attempt env axios_post messages model t0 = Normal (Soft e))
       /\ exists pause,
            snd (fetch_loop env axios_post messages lastError models t)
            = (t0 ++ Post (post_args env messages model) :: pause)%list
            /\ (pause = [] \/ pause = [Delay 500]).
Proof.
  revert models lastError t.
  apply (fetch_loop_cases env axios_post messages
           (fun lastError models _ out =>
              fst out = Throw e ->
              (models = []
               /\ e = match lastError with
                      | Some e0 => e0
                      | None => no_response_error
                      end)
              \/ exists t0 model,
                   In model models
                   /\ (attempt env axios_post messages model t0 = Throw e
                       \/ attempt env axios_post messages model t0
                          = Normal (Soft e))
                   /\ exists pause,
                        snd out
                        = (t0 ++ Post (post_args env messages model) :: pause)%list
                        /\ (pause = [] \/ pause = [Delay 500]))).
  - intros lastError t H. left. cbn [fst] in H. injection H as <-.
    split; reflexivity.
  - intros lastError model rest t d _ _ H. discriminate H.
  - intros lastError model rest t e0 Hatt IH H. right.
    destruct (IH H) as [(-> & ->) | (t0 & m & Hin & Hout & pause & Htrace & Hp)].
    + exists t, model. split; [ left; reflexivity | ].
      split; [ right; exact Hatt | ].
      exists []. split; [ reflexivity | left; reflexivity ].
    + exists t0, m. split; [ right; exact Hin | ].
      split; [ exact Hout | ]. exists pause. split; assumption.
  - intros lastError model rest t e0 Hatt _ H. right. cbn [fst] in H.
    injection H as ->. exists t, model. split; [ left; reflexivity | ].
    split; [ left; exact Hatt | ].
    exists []. split; [ reflexivity | left; reflexivity ].
  - intros lastError model rest t e0 Hatt _ IH H. right.
    destruct (IH H) as [(-> & ->) | (t0 & m & Hin & Hout & pause & Htrace & Hp)].
    + exists t, model. split; [ left; reflexivity | ].
      split; [ left; exact Hatt | ].
      exists [Delay 500]. split; [ reflexivity | right; reflexivity ].
    + exists t0, m. split; [ right; exact Hin | ].
      split; [ exact Hout | ]. exists pause. split; assumption.
  - intros lastError model rest t _ H. discriminate H.
Qed.

(** X20. What [fetchFromModels] throws is the outcome of the last attempt
    it made: the exception of that attempt or the soft failure recorded
    for it, with nothing after it but, for an exception other than a 400,
    the pause.  Only on an empty list, where it makes no attempt, does it
    throw the error saying that no model answered. *)
Theorem thrown_error_is_the_last_attempt messages models t e t' :
  fetchFromModels env axios_post messages models t = (Throw e, t') ->
  (models = [] /\ e = no_response_error /\ t' = t)
  \/ exists t0 model,
       In model models
       /\ (attempt env axios_post messages model t0 = Throw e
           \/ attempt env axios_post messages model t0 = Normal (Soft e))
       /\ exists pause,
            t' = (t0 ++ Post (post_args env messages model) :: pause)%list
            /\ (pause = [] \/ pause = [Delay 500]).
Proof.
  intro Hrun. unfold fetchFromModels in Hrun.
  assert (Hfst : fst (fetch_loop env axios_post messages None models t)
                 = Throw e) by (rewrite Hrun; reflexivity).
  destruct (loop_throws_last_attempt messages models None t e Hfst)
    as [[Hnil He] | H].
  - left. subst models e. cbn [fetch_loop] in Hrun. injection Hrun as <-.
    repeat split.
  - right. rewrite Hrun in H. exact H.
Qed.

(** X21. For a request that passes the validation and whose size
    computes, when every call is answered by a soft failure the handler
    posts to the five models in the chosen order without a pause and
    answers with status 500 and the generic message: the completion
    reason that blocked the answer is not shown to the client. *)
Theorem blocked_everywhere_is_generic_500 req t m ms k totalChars :
  method req = "POST" ->
  own (body req) "messages" = JArr (m :: ms) ->
  GOOGLE_API_KEY env = Some k ->
  k <> "" ->
  totalCharsOf (JArr (m :: ms)) = Normal totalChars ->
  (forall t' call, exists d,
      axios_post t' call = Resolved d /\ soft_response d = true) ->
  handler env axios_post req t
  = (Normal (respond 500 (error_body (JStr MSG_GENERIC))),
     (t ++ map (fun model => Post (post_args env (JArr (m :: ms)) model))
               (getDynamicModelList totalChars))%list).
Proof.
  intros Hpost Hmsgs Hkey Hk Hsize Hall.
  rewrite (handler_valid env axios_post req t m ms k Hpost Hmsgs Hkey Hk).
  unfold handler_try, fetchFromModels. rewrite Hsize.
  assert (Hlist : exists model rest,
             getDynamicModelList totalChars = model :: rest).
  { unfold getDynamicModelList.
    destruct (gt totalChars THRESHOLD); eexists; eexists; reflexivity. }
  destruct Hlist as (model & rest & ->).
  destruct (loop_all_soft env axios_post (JArr (m :: ms)) rest model None t)
    as (d & _ & Hrun).
  { intros before m' after _. apply Hall. }
  rewrite Hrun. reflexivity.
Qed.

End Failures.

(** *** The further properties on concrete runs *)

Lemma returned_payload_was_accepted_witness :
  exists t0 model,
    In model ["gemini-2.5-flash"; "gemini-pro"]
    /\ [Post (post_args Examples.with_key Examples.hello "gemini-2.5-flash");
        Delay 500;
        Post (post_args Examples.with_key Examples.hello "gemini-pro")]
       = (t0 ++ [Post (post_args Examples.with_key Examples.hello model)])%list
    /\ Examples.fail_once Examples.overloaded (Examples.reply "hola" "STOP")
         t0 (post_args Examples.with_key Examples.hello model)
       = Resolved (Examples.reply "hola" "STOP")
    /\ inspect model (Examples.reply "hola" "STOP")
       = Normal (Accept (Examples.reply "hola" "STOP")).
Proof.
  apply (returned_payload_was_accepted
           Examples.with_key
           (Examples.fail_once Examples.overloaded (Examples.reply "hola" "STOP"))
           Examples.hello ["gemini-2.5-flash"; "gemini-pro"] []).
  reflexivity.
Defined.

Lemma accepted_response_has_text_and_reason_witness :
  Examples.reply "hola" "STOP" = Examples.reply "hola" "STOP"
  /\ finished (opt_get0 (opt_get (Examples.reply "hola" "STOP") "candidates"))
     = true
  /\ exists ps,
       opt_get (opt_get (opt_get0 (opt_get (Examples.reply "hola" "STOP")
                                           "candidates")) "content") "parts"
       = JArr ps
       /\ Exists (fun p => truthy (own p "text") = true) ps.
Proof.
  apply (accepted_response_has_text_and_reason "gemini-pro").
  reflexivity.
Defined.

Lemma bad_request_is_the_last_call_witness :
  exists t0 model,
    In model ["gemini-2.5-flash"; "gemini-pro"]
    /\ [Post (post_args Examples.with_key Examples.hello "gemini-2.5-flash")]
       = (t0 ++ [Post (post_args Examples.with_key Examples.hello model)])%list
    /\ Examples.always (Rejected Examples.invalid_argument)
         t0 (post_args Examples.with_key Examples.hello model)
       = Rejected Examples.invalid_argument.
Proof.
  apply (bad_request_is_the_last_call
           Examples.with_key
           (Examples.always (Rejected Examples.invalid_argument))
           Examples.hello ["gemini-2.5-flash"; "gemini-pro"] []).
  - reflexivity.
  - reflexivity.
Defined.

Lemma exhaustion_tries_every_model_witness :
  exists events,
    [Post (post_args Examples.with_key Examples.hello "gemini-2.5-flash");
     Post (post_args Examples.with_key Examples.hello "gemini-pro")]
    = ([] ++ events)%list
    /\ posts events
       = map (post_args Examples.with_key Examples.hello)
             ["gemini-2.5-flash"; "gemini-pro"].
Proof.
  apply (exhaustion_tries_every_model
           Examples.with_key
           (Examples.always (Resolved (Examples.reply "" "SAFETY")))
           Examples.hello ["gemini-2.5-flash"; "gemini-pro"] []
           (soft_error "gemini-pro" "SAFETY")).
  - reflexivity.
  - vm_compute. discriminate.
Defined.

Lemma all_retryable_failures_exhaust_witness :
  fetchFromModels Examples.with_key
                  (Examples.always (Rejected Examples.overloaded))
                  Examples.hello ["gemini-2.5-flash"; "gemini-pro"] []
  = (Throw Examples.overloaded,
     [Post (post_args Examples.with_key Examples.hello "gemini-2.5-flash");
      Delay 500;
      Post (post_args Examples.with_key Examples.hello "gemini-pro");
      Delay 500]).
Proof.
  destruct (all_retryable_failures_exhaust
              Examples.with_key
              (Examples.always (Rejected Examples.overloaded))
              Examples.hello ["gemini-2.5-flash"; "gemini-pro"] [])
    as (e & Hlast & Hrun).
  - discriminate.
  - intros before m after _. exists Examples.overloaded.
    split; [ reflexivity | vm_compute; discriminate ].
  - rewrite Hrun. injection Hlast as <-. reflexivity.
Defined.

Lemma malformed_response_is_retried_witness :
  exists e,
    response e = None
    /\ fetch_loop Examples.with_key
                  (Examples.always (Resolved Examples.parts_not_an_array))
                  Examples.hello None ["gemini-2.5-flash"; "gemini-pro"] []
       = fetch_loop Examples.with_key
                    (Examples.always (Resolved Examples.parts_not_an_array))
                    Examples.hello (Some e) ["gemini-pro"]
                    ([] ++ [Post (post_args Examples.with_key Examples.hello
                                            "gemini-2.5-flash");
                            Delay 500])%list.
Proof.
  apply (malformed_response_is_retried
           Examples.with_key
           (Examples.always (Resolved Examples.parts_not_an_array))
           Examples.hello None "gemini-2.5-flash" ["gemini-pro"] []
           Examples.parts_not_an_array).
  - reflexivity.
  - reflexivity.
  - reflexivity.
Defined.

Lemma upstream_contact_requires_valid_request_witness :
  method (Examples.post Examples.hello) = "POST"
  /\ exists m ms k,
       own (body (Examples.post Examples.hello)) "messages" = JArr (m :: ms)
       /\ GOOGLE_API_KEY Examples.with_key = Some k /\ k <> "".
Proof.
  apply (upstream_contact_requires_valid_request
           Examples.with_key
           (Examples.always (Resolved (Examples.reply "hola" "STOP")))
           (Examples.post Examples.hello) []).
  vm_compute. discriminate.
Defined.

Lemma missing_key_is_config_error_witness :
  handler Examples.without_key
          (Examples.always (Resolved (Examples.reply "hola" "STOP")))
          (Examples.post Examples.hello) []
  = (Normal (respond 500 (error_body
               (JStr "Error de configuración del servidor."))), []).
Proof.
  apply (missing_key_is_config_error
           Examples.without_key
           (Examples.always (Resolved (Examples.reply "hola" "STOP")))
           (Examples.post Examples.hello) []
           (Examples.user_message [Examples.text_part "hi"]) []).
  - reflexivity.
  - reflexivity.
  - left. reflexivity.
Defined.

Lemma first_message_without_parts_is_server_error_witness :
  handler Examples.with_key
          (Examples.always (Resolved (Examples.reply "hola" "STOP")))
          (Examples.post Examples.no_parts) []
  = (Normal (respond 500 (error_body (JStr MSG_GENERIC))), []).
Proof.
  apply (first_message_without_parts_is_server_error
           Examples.with_key
           (Examples.always (Resolved (Examples.reply "hola" "STOP")))
           (Examples.post Examples.no_parts) []
           (JObj [("role", JStr "user")]) [] "test-key").
  - reflexivity.
  - reflexivity.
  - reflexivity.
  - discriminate.
  - right. left. reflexivity.
Defined.

Lemma size_is_sum_of_first_parts_witness :
  totalCharsOf Examples.two_parts = Normal (NFin 2)
  /\ 0 <= 2 <= 4.
Proof.
  apply (size_is_sum_of_first_parts
           [Examples.user_message
              [Examples.text_part "ab"; Examples.text_part "cd"]]).
  constructor; [ | constructor ].
  exists [("role", JStr "user");
          ("parts", JArr [Examples.text_part "ab"; Examples.text_part "cd"])].
  exists (Examples.text_part "ab"), [Examples.text_part "cd"].
  repeat split; reflexivity.
Defined.

Lemma totalChars_single_part_witness :
  totalCharsOf Examples.hello = Normal (NFin 2).
Proof.
  apply (totalChars_single_part [Examples.user_message [Examples.text_part "hi"]]).
  constructor; [ | constructor ].
  exists [("role", JStr "user"); ("parts", JArr [Examples.text_part "hi"])].
  exists [("text", JStr "hi")], "hi".
  repeat split; reflexivity.
Defined.

Lemma first_attempt_follows_size_witness :
  exists later,
    snd (handler Examples.with_key
                 (Examples.always (Rejected Examples.overloaded))
                 (Examples.post Examples.hello) [])
    = ([] ++ Post (post_args Examples.with_key Examples.hello "gemini-2.5-flash")
          :: later)%list.
Proof.
  apply (first_attempt_follows_size
           Examples.with_key (Examples.always (Rejected Examples.overloaded))
           (Examples.post Examples.hello) []
           (Examples.user_message [Examples.text_part "hi"]) [] "test-key"
           (NFin 2)).
  - reflexivity.
  - reflexivity.
  - reflexivity.
  - discriminate.
  - reflexivity.
Defined.

Lemma upstream_400_surfaces_as_bad_request_witness :
  handler Examples.with_key
          (Examples.always (Rejected Examples.invalid_argument))
          (Examples.post Examples.hello) []
  = (Normal (respond 400 (error_body (JStr MSG_BAD_REQUEST))),
     [Post (post_args Examples.with_key Examples.hello "gemini-2.5-flash")]).
Proof.
  apply (upstream_400_surfaces_as_bad_request
           Examples.with_key
           (Examples.always (Rejected Examples.invalid_argument))
           (Examples.post Examples.hello) []
           (Examples.user_message [Examples.text_part "hi"]) [] "test-key"
           (NFin 2) Examples.invalid_argument).
  - reflexivity.
  - reflexivity.
  - reflexivity.
  - discriminate.
  - reflexivity.
  - reflexivity.
  - reflexivity.
Defined.

Lemma accepted_response_is_forwarded_witness :
  handler Examples.with_key
          (Examples.always (Resolved (Examples.reply "hola" "STOP")))
          (Examples.post Examples.hello) []
  = (Normal (respond 200 (Examples.reply "hola" "STOP")),
     [Post (post_args Examples.with_key Examples.hello "gemini-2.5-flash")]).
Proof.
  apply (accepted_response_is_forwarded
           Examples.with_key
           (Examples.always (Resolved (Examples.reply "hola" "STOP")))
           (Examples.post Examples.hello) []
           (Examples.user_message [Examples.text_part "hi"]) [] "test-key"
           (NFin 2) (Examples.reply "hola" "STOP")).
  - reflexivity.
  - reflexivity.
  - reflexivity.
  - discriminate.
  - reflexivity.
  - reflexivity.
  - reflexivity.
Defined.

Lemma persistent_failure_costs_five_attempts_witness :
  fst (handler Examples.with_key
               (Examples.always (Rejected Examples.quota_exceeded))
               (Examples.post Examples.hello) [])
  = Normal (respond 429 (error_body (JStr MSG_QUOTA))).
Proof.
  destruct (persistent_failure_costs_five_attempts
              Examples.with_key
              (Examples.always (Rejected Examples.quota_exceeded))
              (Examples.post Examples.hello) []
              (Examples.user_message [Examples.text_part "hi"]) [] "test-key"
              (NFin 2) Examples.quota_exceeded)
    as (Hrun & _ & _).
  - reflexivity.
  - reflexivity.
  - reflexivity.
  - discriminate.
  - reflexivity.
  - intros t' call. reflexivity.
  - vm_compute. discriminate.
  - rewrite Hrun. reflexivity.
Defined.

Lemma cors_headers_on_every_response_witness :
  exists further,
    resHeaders {| statusCode := 200; resHeaders := CORS_HEADERS; json := None |}
    = (CORS_HEADERS ++ further)%list.
Proof.
  apply (cors_headers_on_every_response
           Examples.with_key
           (Examples.always (Resolved (Examples.reply "hola" "STOP")))
           {| method := "OPTIONS"; body := JUndefined |} []
           {| statusCode := 200; resHeaders := CORS_HEADERS; json := None |} []).
  reflexivity.
Defined.

Lemma other_methods_not_allowed_witness :
  exports Examples.with_key
          (Examples.always (Resolved (Examples.reply "hola" "STOP")))
          {| method := "GET"; body := JUndefined |} []
  = (Normal {| statusCode := 405;
               resHeaders := (CORS_HEADERS ++ [("Allow", JArr [JStr "POST"])])%list;
               json := Some (error_body (JStr "Método no permitido")) |},
     []).
Proof.
  apply (other_methods_not_allowed
           Examples.with_key
           (Examples.always (Resolved (Examples.reply "hola" "STOP")))
           {| method := "GET"; body := JUndefined |} []).
  - discriminate.
  - discriminate.
Defined.

Lemma thrown_error_is_the_last_attempt_witness :
  ([ "gemini-2.5-flash"; "gemini-pro" ] = []
   /\ soft_error "gemini-pro" "SAFETY" = no_response_error
   /\ [Post (post_args Examples.with_key Examples.hello "gemini-2.5-flash");
       Post (post_args Examples.with_key Examples.hello "gemini-pro")] = [])
  \/ exists t0 model,
       In model ["gemini-2.5-flash"; "gemini-pro"]
       /\ (attempt Examples.with_key
                   (Examples.always (Resolved (Examples.reply "" "SAFETY")))
                   Examples.hello model t0
           = Throw (soft_error "gemini-pro" "SAFETY")
           \/ attempt Examples.with_key
                      (Examples.always (Resolved (Examples.reply "" "SAFETY")))
                      Examples.hello model t0
              = Normal (Soft (soft_error "gemini-pro" "SAFETY")))
       /\ exists pause,
            [Post (post_args Examples.with_key Examples.hello "gemini-2.5-flash");
             Post (post_args Examples.with_key Examples.hello "gemini-pro")]
            = (t0 ++ Post (post_args Examples.with_key Examples.hello model)
                  :: pause)%list
            /\ (pause = [] \/ pause = [Delay 500]).
Proof.
  apply (thrown_error_is_the_last_attempt
           Examples.with_key
           (Examples.always (Resolved (Examples.reply "" "SAFETY")))
           Examples.hello ["gemini-2.5-flash"; "gemini-pro"] []).
  reflexivity.
Defined.

Lemma blocked_everywhere_is_generic_500_witness :
  fst (handler Examples.with_key
               (Examples.always (Resolved (Examples.reply "" "SAFETY")))
               (Examples.post Examples.hello) [])
  = Normal (respond 500 (error_body (JStr MSG_GENERIC))).
Proof.
  rewrite (blocked_everywhere_is_generic_500
             Examples.with_key
             (Examples.always (Resolved (Examples.reply "" "SAFETY")))
             (Examples.post Examples.hello) []
             (Examples.user_message [Examples.text_part "hi"]) [] "test-key"
             (NFin 2)).
  - reflexivity.
  - reflexivity.
  - reflexivity.
  - reflexivity.
  - discriminate.
  - reflexivity.
  - intros t' call. exists (Examples.reply "" "SAFETY"). split; reflexivity.
Defined.
